(** * The XLSX import service (app/services/file_processor.py)

    A shallow embedding of [FileProcessor]: the data-frame cleaning step,
    the seven [_prepare_*_data] builders, the row loop of [process_file]
    and the audit entry of [_log_import_audit], followed by the properties
    of the import pipeline that were checked against them.

    Python is modelled as follows.
    - A cell of a row ([row.get(k)]) is a [Cell]: text, integer, float,
      boolean, timestamp or NaT.  The frame that [pd.read_excel] returns
      is an input ([Sheet]): its entries are given as pandas made them,
      the column types it inferred and the common type of a row
      included.  A missing entry is NaN ([None]) or, in a column of
      dates, NaT; [fillna('')] turns NaN into the empty text and leaves
      NaT.
    - A column label is text or not ([Label]); the [.str] accessor of
      [_clean_dataframe] raises on an index that holds no text.
    - The builtins [float], [int], [str], [bool] and [pd.to_datetime] are
      defined on cells; what they do on text and on floats is the Python
      runtime's business and is taken from an interface ([PyRuntime]).
    - [datetime.now()], [uuid.uuid4()], [pd.read_excel] and the outcome of
      [db.commit()] are read from an environment ([Env]); the number of
      clock readings and of UUID draws, and the database session, are the
      state ([World]) threaded through the code.
    - An exception is its message, [str(e)]: every handler of the service
      is [except Exception].  The calls to [logger] are left out. *)

From Stdlib Require Import ZArith NArith List String Ascii Bool Lia.
From Stdlib Require Import DecimalString.
From Stdlib Require Import Sorted.
Import ListNotations.

Local Open Scope string_scope.
Local Open Scope list_scope.

(** ** Text *)

Module Text.

(** [all_chars p s]: every character of [s] satisfies [p]. *)
Fixpoint all_chars (p : ascii -> bool) (s : string) : bool :=
  match s with
  | EmptyString => true
  | String c s' => p c && all_chars p s'
  end.

Fixpoint map_chars (f : ascii -> ascii) (s : string) : string :=
  match s with
  | EmptyString => EmptyString
  | String c s' => String (f c) (map_chars f s')
  end.

Definition in_range (lo hi : nat) (c : ascii) : bool :=
  (lo <=? nat_of_ascii c)%nat && (nat_of_ascii c <=? hi)%nat.

(** ASCII case mapping: the letters A-Z and a-z are 65-90 and 97-122. *)
Definition upper_char (c : ascii) : ascii :=
  if in_range 97 122 c then ascii_of_nat (nat_of_ascii c - 32) else c.

Definition lower_char (c : ascii) : ascii :=
  if in_range 65 90 c then ascii_of_nat (nat_of_ascii c + 32) else c.

(** [s.upper()] and [s.lower()], on ASCII text. *)
Definition upper : string -> string := map_chars upper_char.
Definition lower : string -> string := map_chars lower_char.

(** Text of ASCII characters only: every byte is below 128. *)
Definition is_ascii (c : ascii) : bool := (nat_of_ascii c <? 128)%nat.
Definition ascii_only : string -> bool := all_chars is_ascii.

(** [s.replace(' ', '_')]. *)
Definition spaces_to_underscores : string -> string :=
  map_chars (fun c => if Ascii.eqb c " " then "_"%char else c).

Definition is_digit (c : ascii) : bool := in_range 48 57 c.
Definition is_lower_hex (c : ascii) : bool := is_digit c || in_range 97 102 c.
Definition is_upper_hex (c : ascii) : bool := is_digit c || in_range 65 70 c.

(** [str(n)] for an integer. *)
Definition of_Z (z : Z) : string := NilZero.string_of_int (Z.to_int z).

Definition of_nat (n : nat) : string := of_Z (Z.of_nat n).

Definition is_empty (s : string) : bool :=
  match s with EmptyString => true | String _ _ => false end.

(** Leading and trailing blanks, as [str.strip()] removes them. *)
Definition is_blank (c : ascii) : bool :=
  Ascii.eqb c " " || in_range 9 13 c.

Fixpoint lstrip (s : string) : string :=
  match s with
  | String c s' => if is_blank c then lstrip s' else s
  | EmptyString => EmptyString
  end.

Fixpoint rstrip (s : string) : string :=
  match s with
  | EmptyString => EmptyString
  | String c s' =>
      match rstrip s' with
      | EmptyString => if is_blank c then EmptyString else String c EmptyString
      | t => String c t
      end
  end.

Definition strip (s : string) : string := rstrip (lstrip s).

End Text.

(** ** UUIDs

    [uuid.uuid4()] is a 128-bit integer; [.hex] prints it as 32 lowercase
    hexadecimal digits, most significant first. *)

Module Uuid.

Definition hex_digit (d : N) : ascii :=
  match d with
  | 0%N => "0" | 1%N => "1" | 2%N => "2" | 3%N => "3"
  | 4%N => "4" | 5%N => "5" | 6%N => "6" | 7%N => "7"
  | 8%N => "8" | 9%N => "9" | 10%N => "a" | 11%N => "b"
  | 12%N => "c" | 13%N => "d" | 14%N => "e" | _ => "f"
  end%char.

(** The [k] low hexadecimal digits of [n], most significant first. *)
Fixpoint digits (k : nat) (n : N) : string :=
  match k with
  | O => EmptyString
  | S k' => String (hex_digit ((n / 16 ^ N.of_nat k') mod 16)) (digits k' n)
  end.

Definition hex (u : N) : string := digits 32 u.

(** [uuid.uuid4().hex[:n]]. *)
Definition hex_prefix (n : nat) (u : N) : string := substring 0 n (hex u).

End Uuid.

(** ** Results of code that may raise *)

Inductive Result (A : Type) : Type :=
| Ok (a : A)
| Raise (msg : string).

Arguments Ok {A} a.
Arguments Raise {A} msg.

(** ** The Python runtime

    What [float()], [int()], [str()] and [pd.to_datetime()] do on text and
    on floating-point numbers, what [float()] and [int()] do on NaT, and
    what [str.lower()] does on text that is not ASCII (a string is its
    UTF-8 bytes).  [NaT] is [None] in the result of [to_datetime]. *)

Class PyRuntime : Type := {
  Float : Type;
  Datetime : Type;
  float_of_int : Z -> Float;                         (* float(n) *)
  float_of_str : string -> Result Float;             (* float(s) *)
  float_truth : Float -> bool;                       (* bool(x) *)
  float_str : Float -> string;                       (* str(x) *)
  int_of_float : Float -> Result Z;                  (* int(x) *)
  int_of_str : string -> Result Z;                   (* int(s) *)
  datetime_str : Datetime -> string;                 (* str(t) *)
  to_datetime_str : string -> Result (option Datetime);   (* pd.to_datetime(s) *)
  to_datetime_int : Z -> Result (option Datetime);        (* pd.to_datetime(n) *)
  to_datetime_float : Float -> Result (option Datetime);  (* pd.to_datetime(x) *)
  float_of_nat : Result Float;                       (* float(pd.NaT) *)
  int_of_nat : Result Z;                             (* int(pd.NaT) *)
  unicode_lower : string -> string                   (* s.lower() *)
}.

(** ** Cells, values and rows *)

Section Service.

Context {R : PyRuntime}.

(** What [row.get(k)] can hold once the frame is cleaned.  [CNaT] is
    the missing timestamp of a column of dates. *)
Inductive Cell : Type :=
| CStr (s : string)
| CInt (n : Z)
| CFloat (x : Float)
| CBool (b : bool)
| CTime (t : Datetime)
| CNaT.

(** The values of the keyword arguments handed to a model class. *)
Inductive Value : Type :=
| VNone
| VStr (s : string)
| VInt (n : Z)
| VFloat (x : Float)
| VBool (b : bool)
| VTime (t : Datetime)
| VNaT.

(** A row of the frame ([pd.Series]): column label and cell, in column
    order, for the labels that are text.  Labels are taken to be
    distinct. *)
Definition Series : Type := list (string * Cell).

(** [row.get(k)]: [None] when [k] is not a label of the row. *)
Fixpoint get (row : Series) (k : string) : option Cell :=
  match row with
  | [] => None
  | (k', c) :: rest => if String.eqb k' k then Some c else get rest k
  end.

(** [row.get(k, d)]. *)
Definition get_or (row : Series) (k : string) (d : Cell) : Cell :=
  match get row k with
  | Some c => c
  | None => d
  end.

(** [str(x)]. *)
Definition py_str (c : Cell) : string :=
  match c with
  | CStr s => s
  | CInt n => Text.of_Z n
  | CFloat x => float_str x
  | CBool b => if b then "True" else "False"
  | CTime t => datetime_str t
  | CNaT => "NaT"
  end.

(** [bool(x)]. *)
Definition py_bool (c : Cell) : bool :=
  match c with
  | CStr s => negb (Text.is_empty s)
  | CInt n => negb (n =? 0)%Z
  | CFloat x => float_truth x
  | CBool b => b
  | CTime _ => true
  | CNaT => true
  end.

(** The truth value of [row.get(k)], where [None] is false. *)
Definition truthy (o : option Cell) : bool :=
  match o with
  | Some c => py_bool c
  | None => false
  end.

(** [float(x)]. *)
Definition py_float (c : Cell) : Result Float :=
  match c with
  | CStr s => float_of_str s
  | CInt n => Ok (float_of_int n)
  | CFloat x => Ok x
  | CBool b => Ok (float_of_int (if b then 1 else 0))
  | CTime _ =>
      Raise "float() argument must be a string or a real number, not 'Timestamp'"
  | CNaT => float_of_nat
  end.

(** [int(x)]. *)
Definition py_int (c : Cell) : Result Z :=
  match c with
  | CStr s => int_of_str s
  | CInt n => Ok n
  | CFloat x => int_of_float x
  | CBool b => Ok (if b then 1 else 0)%Z
  | CTime _ =>
      Raise "int() argument must be a string, a bytes-like object or a real number, not 'Timestamp'"
  | CNaT => int_of_nat
  end.

(** [pd.to_datetime(x)]; [None] is [NaT]. *)
Definition to_datetime (c : Cell) : Result (option Datetime) :=
  match c with
  | CStr s => to_datetime_str s
  | CInt n => to_datetime_int n
  | CFloat x => to_datetime_float x
  | CBool _ => Raise "<class 'bool'> is not convertible to datetime"
  | CTime t => Ok (Some t)
  | CNaT => Ok None
  end.

(** [s.lower()]: the ASCII letters of ASCII text, and what the runtime
    does on other text. *)
Definition py_lower (s : string) : string :=
  if Text.ascii_only s then Text.lower s else unicode_lower s.

Definition time_value (o : option Datetime) : Value :=
  match o with
  | Some t => VTime t
  | None => VNaT
  end.

(** ** The frame and its cleaning *)

(** A column label as [pd.read_excel] made it from a header cell: text,
    or something else (a number, a date, a boolean). *)
Inductive Label : Type :=
| LText (s : string)
| LOther.

Definition is_text (l : Label) : bool :=
  match l with LText _ => true | LOther => false end.

(** A frame: the column labels and the rows, each with its index label
    and one entry per column.  In the frame that [pd.read_excel] returns
    a label is a [Label] and an entry is [None] when it is NaN; in the
    cleaned frame a label is its new name, [None] (NaN) for a label that
    was not text, and no entry is NaN. *)
Record DataFrame (L A : Type) : Type := {
  columns : list L;
  rows : list (Z * list A)
}.

Arguments columns {L A} _.
Arguments rows {L A} _.

(** What [pd.read_excel] returns, the row labels apart: the column labels
    and the entries of each row.  An entry is given as the row loop will
    be handed it, not as the cell was written in the workbook: pandas
    gives every column a type when it reads the file (a whole number in a
    column that has an empty cell or a fraction is a float, and text may
    be read as a number, a boolean or a missing value), and [iterrows]
    hands a row out in the common type of the columns of the cleaned
    frame (in a frame of numbers only, a whole number beside a column of
    floats is a float).  A missing entry is [None] (NaN), or [Some CNaT]
    in a column of dates. *)
Record Sheet : Type := {
  header : list Label;
  body : list (list (option Cell))
}.

(** The rows of a sheet with their positions, counted from [i]. *)
Fixpoint enumerate_from {A} (i : Z) (l : list A) : list (Z * A) :=
  match l with
  | [] => []
  | x :: rest => (i, x) :: enumerate_from (i + 1) rest
  end.

(** The frame of a sheet: [pd.read_excel] labels the rows 0, 1, 2, ... *)
Definition frame_of (s : Sheet) : DataFrame Label (option Cell) :=
  {| columns := header s; rows := enumerate_from 0 (body s) |}.

(** [df.dropna(how='all')]: a row goes when every entry is missing (NaN
    or NaT).  The labels of the rows that stay are not renumbered. *)
Definition is_na (o : option Cell) : bool :=
  match o with
  | None => true
  | Some CNaT => true
  | Some _ => false
  end.

Definition all_nan (cells : list (option Cell)) : bool := forallb is_na cells.

Definition dropna_all {L} (df : DataFrame L (option Cell))
    : DataFrame L (option Cell) :=
  {| columns := columns df;
     rows := filter (fun r => negb (all_nan (snd r))) (rows df) |}.

(** [name.lower().replace(' ', '_')] on a label: NaN for a label that is
    not text. *)
Definition renamed (l : Label) : option string :=
  match l with
  | LText s => Some (Text.spaces_to_underscores (py_lower s))
  | LOther => None
  end.

(** [df.columns.str.lower().str.replace(' ', '_')].  The [.str] accessor
    raises AttributeError on an index that holds no text: an index of
    numbers or of dates, and the empty index of a workbook with no
    cell. *)
Definition normalize_columns {A} (df : DataFrame Label A)
    : Result (DataFrame (option string) A) :=
  if existsb is_text (columns df)
  then Ok {| columns := map renamed (columns df); rows := rows df |}
  else Raise "Can only use .str accessor with string values!".

(** [df.fillna('')]: the empty text for NaN; NaT stays. *)
Definition fill (o : option Cell) : Cell :=
  match o with
  | None => CStr ""
  | Some c => c
  end.

Definition fillna_empty {L} (df : DataFrame L (option Cell)) : DataFrame L Cell :=
  {| columns := columns df;
     rows := map (fun r => (fst r, map fill (snd r))) (rows df) |}.

Definition _clean_dataframe (df : DataFrame Label (option Cell))
    : Result (DataFrame (option string) Cell) :=
  match normalize_columns (dropna_all df) with
  | Ok df => Ok (fillna_empty df)
  | Raise e => Raise e
  end.

(** The entries of a row under their labels: an entry whose label is NaN
    is under no name that [row.get] is asked for. *)
Fixpoint labelled (labels : list (option string)) (cells : list Cell) : Series :=
  match labels, cells with
  | Some k :: labels', c :: cells' => (k, c) :: labelled labels' cells'
  | None :: labels', _ :: cells' => labelled labels' cells'
  | _, _ => []
  end.

(** [df.iterrows()]: the label of each row and the row itself, in frame
    order.  The entries are handed out as the sheet gives them (see
    [Sheet]). *)
Definition iterrows (df : DataFrame (option string) Cell) : list (Z * Series) :=
  map (fun r => (fst r, labelled (columns df) (snd r))) (rows df).

(** ** Model classes, the session and the environment *)

(** The classes of [model_mapping]. *)
Inductive Model : Type :=
| Payment | Receipt | Policy | Claim | Customer | Agent | AuditLog.

(** [self.model_mapping.get(data_type)]. *)
Definition model_mapping (data_type : string) : option Model :=
  if String.eqb data_type "payments" then Some Payment
  else if String.eqb data_type "receipts" then Some Receipt
  else if String.eqb data_type "policies" then Some Policy
  else if String.eqb data_type "claims" then Some Claim
  else if String.eqb data_type "customers" then Some Customer
  else if String.eqb data_type "agents" then Some Agent
  else if String.eqb data_type "audit_logs" then Some AuditLog
  else None.

(** The columns each class declares (app/models/). *)
Definition mapped_columns (m : Model) : list string :=
  match m with
  | Payment =>
      ["payment_id"; "transaction_reference"; "amount"; "currency";
       "payment_method"; "payment_status"; "policy_number"; "customer_id";
       "agent_id"; "payment_date"; "due_date"; "description";
       "gateway_transaction_id"; "gateway_response"; "processing_fee";
       "is_recurring"; "is_late_payment"]
  | Receipt =>
      ["receipt_number"; "payment_id"; "amount"; "currency";
       "receipt_date"; "policy_number"; "customer_id"; "customer_name";
       "customer_email"; "description"; "payment_method";
       "receipt_status"; "email_sent"; "email_sent_at";
       "receipt_file_path"; "file_size"]
  | Policy =>
      ["policy_number"; "policy_type"; "premium_amount";
       "coverage_amount"; "deductible"; "currency"; "effective_date";
       "expiration_date"; "renewal_date"; "customer_id"; "customer_name";
       "agent_id"; "agent_name"; "status"; "payment_frequency";
       "next_payment_due"; "description"; "terms_conditions";
       "auto_renewal"; "is_group_policy"]
  | Claim =>
      ["claim_number"; "policy_number"; "claim_type"; "claim_amount";
       "approved_amount"; "currency"; "incident_date"; "claim_date";
       "processed_date"; "settlement_date"; "customer_id";
       "customer_name"; "agent_id"; "status"; "priority"; "description";
       "incident_location"; "adjuster_id"; "adjuster_name";
       "adjuster_notes"; "settlement_method"; "settlement_reference";
       "is_fraudulent"; "requires_investigation"; "has_attachments"]
  | Customer =>
      ["customer_id"; "customer_number"; "first_name"; "last_name";
       "full_name"; "date_of_birth"; "gender"; "email"; "phone"; "mobile";
       "address_line1"; "address_line2"; "city"; "state"; "postal_code";
       "country"; "status"; "customer_type"; "primary_agent_id";
       "registration_date"; "last_contact_date";
       "preferred_contact_method"; "credit_score"; "payment_method";
       "notes"; "marketing_consent"; "is_vip"; "has_claims"]
  | Agent =>
      ["agent_id"; "employee_id"; "license_number"; "first_name";
       "last_name"; "full_name"; "email"; "phone"; "mobile"; "hire_date";
       "department"; "position"; "manager_id"; "status"; "agent_type";
       "total_policies"; "active_policies"; "total_premium_written";
       "commission_rate"; "total_commission_earned";
       "last_commission_date"; "territory"; "specialization";
       "license_state"; "license_expiry"; "certifications";
       "customer_satisfaction_score"; "performance_rating"; "notes";
       "is_top_performer"; "can_approve_claims"]
  | AuditLog =>
      ["log_id"; "session_id"; "user_id"; "user_email"; "user_role";
       "action"; "resource_type"; "resource_id"; "event_timestamp";
       "event_type"; "severity"; "ip_address"; "user_agent";
       "request_method"; "request_url"; "old_values"; "new_values";
       "changes"; "description"; "error_message"; "stack_trace"; "status";
       "is_sensitive"; "requires_review"; "correlation_id";
       "parent_log_id"]
  end.

Definition class_name (m : Model) : string :=
  match m with
  | Payment => "Payment" | Receipt => "Receipt" | Policy => "Policy"
  | Claim => "Claim" | Customer => "Customer" | Agent => "Agent"
  | AuditLog => "AuditLog"
  end.

Definition Dict : Type := list (string * Value).

(** An instance of a model class: the class and the attributes set by
    its constructor. *)
Record Obj : Type := {
  obj_class : Model;
  obj_attrs : Dict
}.

(** [d[k]] for an attribute of a record. *)
Fixpoint attr (d : Dict) (k : string) : option Value :=
  match d with
  | [] => None
  | (k', v) :: rest => if String.eqb k' k then Some v else attr rest k
  end.

(** Calling a model class with keyword arguments: the declarative
    constructor sets each keyword as an attribute and raises on a keyword
    the class does not have. *)
Definition construct (m : Model) (kwargs : Dict) : Result Obj :=
  match find (fun kv => negb (existsb (String.eqb (fst kv)) (mapped_columns m))) kwargs with
  | Some (k, _) =>
      Raise ("'" ++ k ++ "' is an invalid keyword argument for " ++ class_name m)
  | None => Ok {| obj_class := m; obj_attrs := kwargs |}
  end.

(** What was asked of the session, in order. *)
Inductive DbCall : Type :=
| Add (o : Obj)
| Commit (ok : bool)
| Rollback.

(** The session [db]: the objects added and not yet committed, the
    objects committed, and the calls made so far. *)
Record Session : Type := {
  pending : list Obj;
  stored : list Obj;
  calls : list DbCall
}.

(** What the code reads from outside: the clock, the UUID source, what
    parsing the file at a path gives, and whether a commit of a given
    session fails (with the message of the error it raises). *)
Record Env : Type := {
  now_at : nat -> Datetime;
  uuid4_at : nat -> N;
  workbook : string -> Result Sheet;
  commit_error : Session -> option string
}.

Record World : Type := {
  clock_reads : nat;
  uuid_draws : nat;
  db : Session
}.

(** ** Computations: environment, state and exceptions *)

Definition M (A : Type) : Type := Env -> World -> Result A * World.

Definition ret {A} (a : A) : M A := fun _ w => (Ok a, w).

Definition bind {A B} (m : M A) (k : A -> M B) : M B :=
  fun env w =>
    match m env w with
    | (Ok a, w') => k a env w'
    | (Raise e, w') => (Raise e, w')
    end.

Notation "x <- m ;; k" := (bind m (fun x => k))
  (at level 61, m at next level, right associativity).
Notation "m ;;; k" := (bind m (fun _ => k))
  (at level 61, right associativity).

Definition lift {A} (r : Result A) : M A := fun _ w => (r, w).

Definition raise {A} (msg : string) : M A := lift (Raise msg).

(** [try: body except Exception as e: handler(str(e))]. *)
Definition try_except {A} (body : M A) (handler : string -> M A) : M A :=
  fun env w =>
    match body env w with
    | (Ok a, w') => (Ok a, w')
    | (Raise e, w') => handler e env w'
    end.

(** [datetime.now()]. *)
Definition now : M Datetime :=
  fun env w =>
    (Ok (now_at env (clock_reads w)),
     {| clock_reads := S (clock_reads w); uuid_draws := uuid_draws w; db := db w |}).

(** [uuid.uuid4()]. *)
Definition uuid4 : M N :=
  fun env w =>
    (Ok (uuid4_at env (uuid_draws w)),
     {| clock_reads := clock_reads w; uuid_draws := S (uuid_draws w); db := db w |}).

Definition with_db (w : World) (s : Session) : World :=
  {| clock_reads := clock_reads w; uuid_draws := uuid_draws w; db := s |}.

(** [pd.read_excel(file_path)]. *)
Definition read_excel (file_path : string) : M (DataFrame Label (option Cell)) :=
  fun env w =>
    match workbook env file_path with
    | Ok sheet => (Ok (frame_of sheet), w)
    | Raise e => (Raise e, w)
    end.

(** The session after [db.add(o)], after a commit that went through,
    after one that raised (the session has rolled its transaction back
    and holds no pending object any more), and after [db.rollback()]. *)
Definition added (s : Session) (o : Obj) : Session :=
  {| pending := pending s ++ [o];
     stored := stored s;
     calls := calls s ++ [Add o] |}.

Definition committed (s : Session) : Session :=
  {| pending := [];
     stored := stored s ++ pending s;
     calls := calls s ++ [Commit true] |}.

Definition commit_failed (s : Session) : Session :=
  {| pending := [];
     stored := stored s;
     calls := calls s ++ [Commit false] |}.

Definition rolled_back (s : Session) : Session :=
  {| pending := [];
     stored := stored s;
     calls := calls s ++ [Rollback] |}.

(** [db.add(o)]. *)
Definition db_add (o : Obj) : M unit :=
  fun _ w => (Ok tt, with_db w (added (db w) o)).

(** [db.commit()]. *)
Definition db_commit : M unit :=
  fun env w =>
    match commit_error env (db w) with
    | None => (Ok tt, with_db w (committed (db w)))
    | Some msg => (Raise msg, with_db w (commit_failed (db w)))
    end.

(** [db.rollback()]. *)
Definition db_rollback : M unit :=
  fun _ w => (Ok tt, with_db w (rolled_back (db w))).

(** ** The field expressions of the builders

    A dict display evaluates its values in the order written; the first
    one that raises ends the evaluation. *)
Fixpoint dict (fields : list (string * M Value)) : M Dict :=
  match fields with
  | [] => ret []
  | (k, e) :: rest =>
      v <- e ;;
      d <- dict rest ;;
      ret ((k, v) :: d)
  end.

(** [str(row.get(k, d))], [d] a literal. *)
Definition text (row : Series) (k d : string) : M Value :=
  ret (VStr (py_str (get_or row k (CStr d)))).

(** [str(row.get(k, f"<prefix>{uuid.uuid4().hex[:n].upper()}"))]: the
    default is an argument of [get], so the UUID is drawn whether or not
    the row has [k]. *)
Definition text_or_uid (row : Series) (k prefix : string) (n : nat) : M Value :=
  u <- uuid4 ;;
  ret (VStr (py_str (get_or row k (CStr (prefix ++ Text.upper (Uuid.hex_prefix n u)))))).

(** [str(row.get(k, f"<prefix>{uuid.uuid4().hex[:n]}<suffix>"))]. *)
Definition text_or_address (row : Series) (k prefix : string) (n : nat)
    (suffix : string) : M Value :=
  u <- uuid4 ;;
  ret (VStr (py_str (get_or row k (CStr (prefix ++ Uuid.hex_prefix n u ++ suffix))))).

(** [str(row.get(k, "")) if row.get(k) else None]. *)
Definition opt_text (row : Series) (k : string) : M Value :=
  if truthy (get row k)
  then ret (VStr (py_str (get_or row k (CStr ""))))
  else ret VNone.

(** [float(row.get(k, 0))]. *)
Definition number (row : Series) (k : string) : M Value :=
  x <- lift (py_float (get_or row k (CInt 0))) ;;
  ret (VFloat x).

(** [float(row.get(k)) if row.get(k) else None]. *)
Definition opt_number (row : Series) (k : string) : M Value :=
  match get row k with
  | Some c => if py_bool c then x <- lift (py_float c) ;; ret (VFloat x) else ret VNone
  | None => ret VNone
  end.

(** [int(row.get(k, 0))]. *)
Definition count (row : Series) (k : string) : M Value :=
  n <- lift (py_int (get_or row k (CInt 0))) ;;
  ret (VInt n).

(** [int(row.get(k)) if row.get(k) else None]. *)
Definition opt_count (row : Series) (k : string) : M Value :=
  match get row k with
  | Some c => if py_bool c then n <- lift (py_int c) ;; ret (VInt n) else ret VNone
  | None => ret VNone
  end.

(** [pd.to_datetime(row.get(k, current_time))]. *)
Definition date (row : Series) (k : string) (current_time : Datetime) : M Value :=
  t <- lift (to_datetime (get_or row k (CTime current_time))) ;;
  ret (time_value t).

(** [pd.to_datetime(row.get(k)) if row.get(k) else None]. *)
Definition opt_date (row : Series) (k : string) : M Value :=
  match get row k with
  | Some c => if py_bool c then t <- lift (to_datetime c) ;; ret (time_value t) else ret VNone
  | None => ret VNone
  end.

(** [bool(row.get(k, False))]. *)
Definition flag (row : Series) (k : string) : M Value :=
  ret (VBool (py_bool (get_or row k (CBool false)))).

(** ** The seven builders *)

Definition _prepare_payment_data (row : Series) (current_time : Datetime) : M Dict :=
  dict [
    ("payment_id", text_or_uid row "payment_id" "PAY-" 8);
    ("transaction_reference", text_or_uid row "transaction_reference" "TXN-" 12);
    ("amount", number row "amount");
    ("currency", text row "currency" "USD");
    ("payment_method", text row "payment_method" "unknown");
    ("payment_status", text row "payment_status" "pending");
    ("policy_number", opt_text row "policy_number");
    ("customer_id", opt_text row "customer_id");
    ("agent_id", opt_text row "agent_id");
    ("payment_date", date row "payment_date" current_time);
    ("due_date", opt_date row "due_date");
    ("description", opt_text row "description");
    ("processing_fee", number row "processing_fee");
    ("is_recurring", flag row "is_recurring");
    ("is_late_payment", flag row "is_late_payment")
  ].

Definition _prepare_receipt_data (row : Series) (current_time : Datetime) : M Dict :=
  dict [
    ("receipt_number", text_or_uid row "receipt_number" "RCP-" 8);
    ("payment_id", text_or_uid row "payment_id" "PAY-" 8);
    ("amount", number row "amount");
    ("currency", text row "currency" "USD");
    ("receipt_date", date row "receipt_date" current_time);
    ("policy_number", opt_text row "policy_number");
    ("customer_id", opt_text row "customer_id");
    ("customer_name", text row "customer_name" "Unknown Customer");
    ("customer_email", opt_text row "customer_email");
    ("description", opt_text row "description");
    ("payment_method", text row "payment_method" "unknown");
    ("receipt_status", text row "receipt_status" "generated");
    ("email_sent", flag row "email_sent")
  ].

Definition _prepare_policy_data (row : Series) (current_time : Datetime) : M Dict :=
  dict [
    ("policy_number", text_or_uid row "policy_number" "POL-" 8);
    ("policy_type", text row "policy_type" "unknown");
    ("premium_amount", number row "premium_amount");
    ("coverage_amount", number row "coverage_amount");
    ("deductible", number row "deductible");
    ("currency", text row "currency" "USD");
    ("effective_date", date row "effective_date" current_time);
    ("expiration_date", date row "expiration_date" current_time);
    ("renewal_date", opt_date row "renewal_date");
    ("customer_id", text_or_uid row "customer_id" "CUST-" 8);
    ("customer_name", text row "customer_name" "Unknown Customer");
    ("agent_id", opt_text row "agent_id");
    ("agent_name", opt_text row "agent_name");
    ("status", text row "status" "active");
    ("payment_frequency", text row "payment_frequency" "monthly");
    ("next_payment_due", opt_date row "next_payment_due");
    ("description", opt_text row "description");
    ("auto_renewal", flag row "auto_renewal");
    ("is_group_policy", flag row "is_group_policy")
  ].

Definition _prepare_claim_data (row : Series) (current_time : Datetime) : M Dict :=
  dict [
    ("claim_number", text_or_uid row "claim_number" "CLM-" 8);
    ("policy_number", text_or_uid row "policy_number" "POL-" 8);
    ("claim_type", text row "claim_type" "unknown");
    ("claim_amount", number row "claim_amount");
    ("approved_amount", opt_number row "approved_amount");
    ("currency", text row "currency" "USD");
    ("incident_date", date row "incident_date" current_time);
    ("claim_date", date row "claim_date" current_time);
    ("processed_date", opt_date row "processed_date");
    ("settlement_date", opt_date row "settlement_date");
    ("customer_id", text_or_uid row "customer_id" "CUST-" 8);
    ("customer_name", text row "customer_name" "Unknown Customer");
    ("agent_id", opt_text row "agent_id");
    ("status", text row "status" "submitted");
    ("priority", text row "priority" "medium");
    ("description", text row "description" "Claim description");
    ("incident_location", opt_text row "incident_location");
    ("adjuster_id", opt_text row "adjuster_id");
    ("adjuster_name", opt_text row "adjuster_name");
    ("is_fraudulent", flag row "is_fraudulent");
    ("requires_investigation", flag row "requires_investigation");
    ("has_attachments", flag row "has_attachments")
  ].

Definition _prepare_customer_data (row : Series) (current_time : Datetime) : M Dict :=
  let first_name := py_str (get_or row "first_name" (CStr "Unknown")) in
  let last_name := py_str (get_or row "last_name" (CStr "Customer")) in
  let full_name := py_str (get_or row "full_name" (CStr (first_name ++ " " ++ last_name))) in
  dict [
    ("customer_id", text_or_uid row "customer_id" "CUST-" 8);
    ("customer_number", opt_text row "customer_number");
    ("first_name", ret (VStr first_name));
    ("last_name", ret (VStr last_name));
    ("full_name", ret (VStr full_name));
    ("date_of_birth", opt_date row "date_of_birth");
    ("gender", opt_text row "gender");
    ("email", text_or_address row "email" "customer" 8 "@example.com");
    ("phone", opt_text row "phone");
    ("mobile", opt_text row "mobile");
    ("address_line1", opt_text row "address_line1");
    ("address_line2", opt_text row "address_line2");
    ("city", opt_text row "city");
    ("state", opt_text row "state");
    ("postal_code", opt_text row "postal_code");
    ("country", opt_text row "country");
    ("status", text row "status" "active");
    ("customer_type", text row "customer_type" "individual");
    ("primary_agent_id", opt_text row "primary_agent_id");
    ("registration_date", date row "registration_date" current_time);
    ("last_contact_date", opt_date row "last_contact_date");
    ("preferred_contact_method", text row "preferred_contact_method" "email");
    ("credit_score", opt_count row "credit_score");
    ("payment_method", opt_text row "payment_method");
    ("notes", opt_text row "notes");
    ("marketing_consent", flag row "marketing_consent");
    ("is_vip", flag row "is_vip");
    ("has_claims", flag row "has_claims")
  ].

Definition _prepare_agent_data (row : Series) (current_time : Datetime) : M Dict :=
  let first_name := py_str (get_or row "first_name" (CStr "Unknown")) in
  let last_name := py_str (get_or row "last_name" (CStr "Agent")) in
  let full_name := py_str (get_or row "full_name" (CStr (first_name ++ " " ++ last_name))) in
  dict [
    ("agent_id", text_or_uid row "agent_id" "AGT-" 8);
    ("employee_id", opt_text row "employee_id");
    ("license_number", opt_text row "license_number");
    ("first_name", ret (VStr first_name));
    ("last_name", ret (VStr last_name));
    ("full_name", ret (VStr full_name));
    ("email", text_or_address row "email" "agent" 8 "@example.com");
    ("phone", opt_text row "phone");
    ("mobile", opt_text row "mobile");
    ("hire_date", date row "hire_date" current_time);
    ("department", opt_text row "department");
    ("position", opt_text row "position");
    ("manager_id", opt_text row "manager_id");
    ("status", text row "status" "active");
    ("agent_type", text row "agent_type" "employee");
    ("total_policies", count row "total_policies");
    ("active_policies", count row "active_policies");
    ("total_premium_written", number row "total_premium_written");
    ("commission_rate", number row "commission_rate");
    ("total_commission_earned", number row "total_commission_earned");
    ("last_commission_date", opt_date row "last_commission_date");
    ("territory", opt_text row "territory");
    ("specialization", opt_text row "specialization");
    ("license_state", opt_text row "license_state");
    ("license_expiry", opt_date row "license_expiry");
    ("customer_satisfaction_score", opt_number row "customer_satisfaction_score");
    ("performance_rating", opt_text row "performance_rating");
    ("notes", opt_text row "notes");
    ("is_top_performer", flag row "is_top_performer");
    ("can_approve_claims", flag row "can_approve_claims")
  ].

Definition _prepare_audit_log_data (row : Series) (current_time : Datetime) : M Dict :=
  dict [
    ("log_id", text_or_uid row "log_id" "LOG-" 8);
    ("session_id", opt_text row "session_id");
    ("user_id", opt_text row "user_id");
    ("user_email", opt_text row "user_email");
    ("user_role", opt_text row "user_role");
    ("action", text row "action" "UNKNOWN");
    ("resource_type", text row "resource_type" "unknown");
    ("resource_id", opt_text row "resource_id");
    ("event_timestamp", date row "event_timestamp" current_time);
    ("event_type", text row "event_type" "user_action");
    ("severity", text row "severity" "info");
    ("ip_address", opt_text row "ip_address");
    ("user_agent", opt_text row "user_agent");
    ("request_method", opt_text row "request_method");
    ("request_url", opt_text row "request_url");
    ("description", opt_text row "description");
    ("error_message", opt_text row "error_message");
    ("status", text row "status" "success");
    ("is_sensitive", flag row "is_sensitive");
    ("requires_review", flag row "requires_review");
    ("correlation_id", opt_text row "correlation_id");
    ("parent_log_id", opt_text row "parent_log_id")
  ].

(** ** The service *)

(** The clock is read once for every row that is prepared. *)
Definition _prepare_record_data (row : Series) (data_type : string) : M Dict :=
  current_time <- now ;;
  if String.eqb data_type "payments" then _prepare_payment_data row current_time
  else if String.eqb data_type "receipts" then _prepare_receipt_data row current_time
  else if String.eqb data_type "policies" then _prepare_policy_data row current_time
  else if String.eqb data_type "claims" then _prepare_claim_data row current_time
  else if String.eqb data_type "customers" then _prepare_customer_data row current_time
  else if String.eqb data_type "agents" then _prepare_agent_data row current_time
  else if String.eqb data_type "audit_logs" then _prepare_audit_log_data row current_time
  else raise ("Unsupported data type: " ++ data_type).

(** The entry [_log_import_audit] builds. *)
Definition audit_entry (data_type : string) (records_imported error_count : nat)
    (u : N) (t : Datetime) : Dict :=
  [ ("log_id", VStr ("IMPORT-" ++ Text.upper (Uuid.hex_prefix 8 u)));
    ("action", VStr "FILE_IMPORT");
    ("resource_type", VStr data_type);
    ("event_timestamp", VTime t);
    ("event_type", VStr "system_event");
    ("severity", VStr (if Nat.eqb error_count 0 then "info" else "warning"));
    ("description",
     VStr ("File import completed for " ++ data_type ++ ": "
           ++ Text.of_nat records_imported ++ " records imported, "
           ++ Text.of_nat error_count ++ " errors"));
    ("status", VStr (if Nat.eqb error_count 0 then "success" else "warning")) ].

(** Whatever is raised while the entry is built, added or committed is
    caught (and logged). *)
Definition _log_import_audit (data_type : string)
    (records_imported error_count : nat) : M unit :=
  try_except
    (u <- uuid4 ;;
     t <- now ;;
     audit_log <- lift (construct AuditLog
                          (audit_entry data_type records_imported error_count u t)) ;;
     db_add audit_log ;;;
     db_commit)
    (fun _ => ret tt).

(** [f"Row {index + 1}: {str(e)}"]. *)
Definition row_error (index : Z) (e : string) : string :=
  "Row " ++ Text.of_Z (index + 1) ++ ": " ++ e.

(** The body of the row loop for one row: the record is prepared, built
    and added, or the row's message joins [errors]. *)
Definition process_row (model_class : Model) (data_type : string)
    (index : Z) (row : Series)
    (processed_records : list Obj) (errors : list string)
    : M (list Obj * list string) :=
  try_except
    (record_data <- _prepare_record_data row data_type ;;
     record <- lift (construct model_class record_data) ;;
     db_add record ;;;
     ret (processed_records ++ [record], errors))
    (fun e => ret (processed_records, errors ++ [row_error index e])).

(** [for index, row in df.iterrows(): ...]. *)
Fixpoint process_rows (model_class : Model) (data_type : string)
    (items : list (Z * Series))
    (processed_records : list Obj) (errors : list string)
    : M (list Obj * list string) :=
  match items with
  | [] => ret (processed_records, errors)
  | (index, row) :: rest =>
      acc <- process_row model_class data_type index row processed_records errors ;;
      process_rows model_class data_type rest (fst acc) (snd acc)
  end.

Record ImportResult : Type := {
  records_imported : nat;
  errors : list string;
  status : string
}.

Definition process_file (file_path data_type : string) : M ImportResult :=
  try_except
    (df <- read_excel file_path ;;
     df <- lift (_clean_dataframe df) ;;
     model_class <-
       match model_mapping data_type with
       | Some m => ret m
       | None => raise ("Unsupported data type: " ++ data_type)
       end ;;
     acc <- process_rows model_class data_type (iterrows df) [] [] ;;
     let processed_records := fst acc in
     let errors := snd acc in
     (match processed_records with
      | [] => ret tt
      | _ :: _ => db_commit
      end) ;;;
     _log_import_audit data_type (List.length processed_records) (List.length errors) ;;;
     ret {| records_imported := List.length processed_records;
            errors := errors;
            status := match errors with
                      | [] => "completed"
                      | _ :: _ => "completed_with_errors"
                      end |})
    (fun e => db_rollback ;;; raise e).

End Service.

Arguments columns {L A} _.
Arguments rows {L A} _.

Notation "x <- m ;; k" := (bind m (fun x => k))
  (at level 61, m at next level, right associativity).
Notation "m ;;; k" := (bind m (fun _ => k))
  (at level 61, right associativity).

(** ** Vocabulary of the properties *)

Section Vocabulary.

Context {R : PyRuntime}.

(** A computation is [quiet] when it leaves the session and the clock as
    they are: it may only draw UUIDs. *)
Definition quiet {A} (e : M A) : Prop :=
  forall env w,
    db (snd (e env w)) = db w /\ clock_reads (snd (e env w)) = clock_reads w.

(** The builder [_prepare_record_data] runs for each model class. *)
Definition builder (m : Model) : Series -> Datetime -> M Dict :=
  match m with
  | Payment => _prepare_payment_data
  | Receipt => _prepare_receipt_data
  | Policy => _prepare_policy_data
  | Claim => _prepare_claim_data
  | Customer => _prepare_customer_data
  | Agent => _prepare_agent_data
  | AuditLog => _prepare_audit_log_data
  end.

(** The business identifier of each class and the prefix of the
    identifier its builder makes up. *)
Definition id_field (m : Model) : string :=
  match m with
  | Payment => "payment_id" | Receipt => "receipt_number"
  | Policy => "policy_number" | Claim => "claim_number"
  | Customer => "customer_id" | Agent => "agent_id" | AuditLog => "log_id"
  end.

Definition id_prefix (m : Model) : string :=
  match m with
  | Payment => "PAY-" | Receipt => "RCP-" | Policy => "POL-" | Claim => "CLM-"
  | Customer => "CUST-" | Agent => "AGT-" | AuditLog => "LOG-"
  end.

(** The fields written [pd.to_datetime(row.get(k, current_time))]. *)
Definition required_dates (m : Model) : list string :=
  match m with
  | Payment => ["payment_date"]
  | Receipt => ["receipt_date"]
  | Policy => ["effective_date"; "expiration_date"]
  | Claim => ["incident_date"; "claim_date"]
  | Customer => ["registration_date"]
  | Agent => ["hire_date"]
  | AuditLog => ["event_timestamp"]
  end.

(** The fields written [float(row.get(k, 0))]. *)
Definition required_amounts (m : Model) : list string :=
  match m with
  | Payment => ["amount"; "processing_fee"]
  | Receipt => ["amount"]
  | Policy => ["premium_amount"; "coverage_amount"; "deductible"]
  | Claim => ["claim_amount"]
  | Customer => []
  | Agent => ["total_premium_written"; "commission_rate"; "total_commission_earned"]
  | AuditLog => []
  end.

(** The fields written [float(row.get(k)) if row.get(k) else None]. *)
Definition optional_amounts (m : Model) : list string :=
  match m with
  | Payment => []
  | Receipt => []
  | Policy => []
  | Claim => ["approved_amount"]
  | Customer => []
  | Agent => ["customer_satisfaction_score"]
  | AuditLog => []
  end.

(** The fields written [int(row.get(k)) if row.get(k) else None]. *)
Definition optional_counts (m : Model) : list string :=
  match m with
  | Payment => []
  | Receipt => []
  | Policy => []
  | Claim => []
  | Customer => ["credit_score"]
  | Agent => []
  | AuditLog => []
  end.

(** The fields written [bool(row.get(k, False))]. *)
Definition flags (m : Model) : list string :=
  match m with
  | Payment => ["is_recurring"; "is_late_payment"]
  | Receipt => ["email_sent"]
  | Policy => ["auto_renewal"; "is_group_policy"]
  | Claim => ["is_fraudulent"; "requires_investigation"; "has_attachments"]
  | Customer => ["marketing_consent"; "is_vip"; "has_claims"]
  | Agent => ["is_top_performer"; "can_approve_claims"]
  | AuditLog => ["is_sensitive"; "requires_review"]
  end.

(** [if processed_records: db.commit()]: the error of the batch commit,
    if it is made and raises. *)
Definition batch_commit_error (env : Env) (s : Session) (records : list Obj)
    : option string :=
  match records with
  | [] => None
  | _ :: _ => commit_error env s
  end.

(** The session once the batch is through: committed if there was
    anything to commit. *)
Definition after_batch (s : Session) (records : list Obj) : Session :=
  match records with
  | [] => s
  | _ :: _ => committed s
  end.

(** The session after a commit was tried. *)
Definition commit_tried (env : Env) (s : Session) : Session :=
  match commit_error env s with
  | None => committed s
  | Some _ => commit_failed s
  end.

Definition commit_passes (env : Env) (s : Session) : bool :=
  match commit_error env s with
  | None => true
  | Some _ => false
  end.

(** The object [_log_import_audit] adds in state [w]: its UUID and its
    timestamp are the next ones. *)
Definition audit_object (data_type : string) (imported failed : nat)
    (env : Env) (w : World) : Obj :=
  {| obj_class := AuditLog;
     obj_attrs := audit_entry data_type imported failed
                    (uuid4_at env (uuid_draws w)) (now_at env (clock_reads w)) |}.

(** The state [_log_import_audit] leaves, the session being [s] when it
    is called. *)
Definition after_audit (data_type : string) (imported failed : nat)
    (env : Env) (w : World) (s : Session) : World :=
  {| clock_reads := S (clock_reads w);
     uuid_draws := S (uuid_draws w);
     db := commit_tried env (added s (audit_object data_type imported failed env w)) |}.

End Vocabulary.

(** ** A runtime to compute with

    An instance of [PyRuntime] on which the service can be run: floats are
    the whole numbers and a timestamp is its number of nanoseconds since
    the epoch.  [float] and [int] read an optionally signed run of decimal
    digits between blanks and raise on any other text, and
    [pd.to_datetime] reads the empty text ([NaT]).  The sheets below have
    whole numbers, "abc" or nothing in their numeric columns, no text in
    a date column, and no timestamp among their cells. *)

Module Sample.

Fixpoint digits_value (s : string) (acc : Z) : option Z :=
  match s with
  | EmptyString => Some acc
  | String c s' =>
      if Text.is_digit c
      then digits_value s' (10 * acc + Z.of_nat (nat_of_ascii c - 48))
      else None
  end.

Definition unsigned_value (s : string) : option Z :=
  match s with
  | EmptyString => None
  | _ => digits_value s 0
  end.

Definition whole_value (s : string) : option Z :=
  match Text.strip s with
  | String "-" s' => option_map Z.opp (unsigned_value s')
  | String "+" s' => unsigned_value s'
  | s' => unsigned_value s'
  end.

Definition parse (what : string) (s : string) : Result Z :=
  match whole_value s with
  | Some z => Ok z
  | None => Raise (what ++ "'" ++ s ++ "'")
  end.

#[export] Instance runtime : PyRuntime := {|
  Float := Z;
  Datetime := Z;
  float_of_int := fun n => n;
  float_of_str := parse "could not convert string to float: ";
  float_truth := fun x => negb (x =? 0)%Z;
  float_str := fun x => (Text.of_Z x ++ ".0")%string;
  int_of_float := fun x => Ok x;
  int_of_str := parse "invalid literal for int() with base 10: ";
  datetime_str := fun t => Text.of_Z t;
  to_datetime_str := fun s =>
    if Text.is_empty s then Ok None
    else Raise ("Unknown datetime string format, unable to parse: " ++ s);
  to_datetime_int := fun n => Ok (Some n);
  to_datetime_float := fun x => Ok (Some x);
  float_of_nat :=
    Raise "float() argument must be a string or a real number, not 'NaTType'";
  int_of_nat :=
    Raise "int() argument must be a string, a bytes-like object or a real number, not 'NaTType'";
  unicode_lower := Text.lower
|}.

(** An environment: the clock starts at [t0] and advances by [dt] at each
    reading, the UUIDs are a fixed sequence, one file is on disk, and a
    commit fails when [fails] says so. *)
Definition env (t0 dt : Z) (file : string)
    (sheet : Result Sheet)
    (fails : Session -> option string) : Env :=
  {| now_at := fun n => (Z.of_nat n * dt + t0)%Z;
     uuid4_at := fun n =>
       (N.of_nat n * 0x1000000010000000100000001
        + 0xA1B2C3D4E5F60718293A4B5C6D7E8F90)%N;
     workbook := fun path =>
       if String.eqb path file then sheet
       else Raise ("[Errno 2] No such file or directory: '" ++ path ++ "'");
     commit_error := fails |}.

Definition empty_session : Session :=
  {| pending := []; stored := []; calls := [] |}.

Definition world0 : World :=
  {| clock_reads := 0; uuid_draws := 0; db := empty_session |}.

(** The file "import.xlsx" holds [sheet], the clock reads 1000, 1005,
    1010, ...; every commit goes through ([on_disk]) or every commit
    raises ([locked]). *)
Definition on_disk (sheet : Sheet) : Env :=
  env 1000 5 "import.xlsx" (Ok sheet) (fun _ => None).

Definition locked (sheet : Sheet) : Env :=
  env 1000 5 "import.xlsx" (Ok sheet) (fun _ => Some "database is locked").

(** A payments sheet: a row with blanks around its identifier, a blank
    row, a row with text for its amount, and a plain row. *)
Definition payments_sheet : Sheet :=
  {| header := map LText ["Payment ID"; "Amount"];
     body := [ [Some (CStr " P1 "); Some (CInt 10)];
               [None; None];
               [Some (CStr "P3"); Some (CStr "abc")];
               [Some (CStr "P4"); Some (CInt 7)] ] |}.

(** A payments row with no identifier, one with no amount, and one whose
    flags are the boolean False and the number 0. *)
Definition blank_id_sheet : Sheet :=
  {| header := map LText ["payment_id"; "amount"];
     body := [ [None; Some (CInt 5)] ] |}.

Definition blank_amount_sheet : Sheet :=
  {| header := map LText ["payment_id"; "amount"];
     body := [ [Some (CStr "P1"); None] ] |}.

Definition flags_sheet : Sheet :=
  {| header := map LText ["payment_id"; "is_recurring"; "is_late_payment"];
     body := [ [Some (CStr "P1"); Some (CBool false); Some (CInt 0)] ] |}.

(** A customers row with no email. *)
Definition customers_sheet : Sheet :=
  {| header := map LText ["First Name"; "Email"];
     body := [ [Some (CStr "Ada"); None] ] |}.

(** The cleaned frame of a sheet, the rows the loop sees for it, and the
    first of them. *)
Definition cleaned (sheet : Sheet) : DataFrame (option string) Cell :=
  match _clean_dataframe (frame_of sheet) with
  | Ok df => df
  | Raise _ => {| columns := []; rows := [] |}
  end.

Abbreviation items sheet := (iterrows (cleaned sheet)).

Definition row_at (n : nat) (sheet : Sheet) : Series :=
  snd (nth n (items sheet) (0%Z, [])).

(** What a run returned, or [d] if it raised. *)
Definition returned {A} (d : A) (run : Result A * World) : A :=
  match fst run with
  | Ok a => a
  | Raise _ => d
  end.

(** The records and the errors a run of the row loop collected. *)
Definition staged (run : Result (list Obj * list string) * World) : list Obj :=
  fst (returned ([], []) run).

Definition failed (run : Result (list Obj * list string) * World) : list string :=
  snd (returned ([], []) run).

(** The calls on the session, in short. *)
Definition call_name (c : DbCall) : string :=
  match c with
  | Add o => "add " ++ class_name (obj_class o)
  | Commit true => "commit"
  | Commit false => "commit raises"
  | Rollback => "rollback"
  end.

Definition attr_of (k : string) (o : Obj) : option Value := attr (obj_attrs o) k.

(** The objects of class [m] that a run left stored. *)
Definition stored_of {A} (m : Model) (run : Result A * World) : list Obj :=
  filter (fun o => String.eqb (class_name (obj_class o)) (class_name m))
         (stored (db (snd run))).

(** The import of a sheet when every commit goes through, and when every
    commit raises. *)
Abbreviation import data_type sheet :=
  (process_file "import.xlsx" data_type (on_disk sheet) world0).

Abbreviation import_locked data_type sheet :=
  (process_file "import.xlsx" data_type (locked sheet) world0).

(** The row loop over the payments sheet, and over its first row. *)
Abbreviation payments_loop :=
  (process_rows Payment "payments" (items payments_sheet) [] []
     (on_disk payments_sheet) world0).

Abbreviation payments_loop_1 :=
  (process_rows Payment "payments" (firstn 1 (items payments_sheet)) [] []
     (on_disk payments_sheet) world0).

(** The first row of a sheet, prepared for payments. *)
Abbreviation prepared sheet :=
  (_prepare_record_data (row_at 0 sheet) "payments" (on_disk sheet) world0).

(** What the import of the payments sheet returns. *)
Definition payments_result : ImportResult :=
  {| records_imported := 2;
     errors := ["Row 3: could not convert string to float: 'abc'"];
     status := "completed_with_errors" |}.

End Sample.

(** ** More vocabulary *)

Section FieldTables.

Context {R : PyRuntime}.

(** The name [_clean_dataframe] gives to a header of ASCII text. *)
Definition normalized (c : string) : string :=
  Text.spaces_to_underscores (Text.lower c).

(** The fields written [str(row.get(k, "")) if row.get(k) else None]. *)
Definition optional_texts (m : Model) : list string :=
  match m with
  | Payment =>
      ["policy_number"; "customer_id"; "agent_id"; "description"]
  | Receipt =>
      ["policy_number"; "customer_id"; "customer_email"; "description"]
  | Policy =>
      ["agent_id"; "agent_name"; "description"]
  | Claim =>
      ["agent_id"; "incident_location"; "adjuster_id"; "adjuster_name"]
  | Customer =>
      ["customer_number"; "gender"; "phone"; "mobile"; "address_line1";
       "address_line2"; "city"; "state"; "postal_code"; "country";
       "primary_agent_id"; "payment_method"; "notes"]
  | Agent =>
      ["employee_id"; "license_number"; "phone"; "mobile"; "department";
       "position"; "manager_id"; "territory"; "specialization";
       "license_state"; "performance_rating"; "notes"]
  | AuditLog =>
      ["session_id"; "user_id"; "user_email"; "user_role";
       "resource_id"; "ip_address"; "user_agent"; "request_method";
       "request_url"; "description"; "error_message"; "correlation_id";
       "parent_log_id"]
  end.

(** A character that is neither a space nor an ASCII capital. *)
Definition plain_char (c : ascii) : bool :=
  negb (Ascii.eqb c " ") && negb (Text.in_range 65 90 c).

(** The default last name of each class that has one. *)
Definition default_last_name (m : Model) : string :=
  match m with
  | Agent => "Agent"
  | _ => "Customer"
  end.

End FieldTables.

(** ** The upload route (app/routes/file_upload.py) *)

Module Route.

(** [s.endswith(suffix)]. *)
Definition ends_with (s suffix : string) : bool :=
  let n := String.length s in
  let m := String.length suffix in
  (m <=? n)%nat && String.eqb (substring (n - m) m s) suffix.

(** [os.path.join(a, b)], on POSIX. *)
Definition path_join (a b : string) : string :=
  if String.prefix "/" b then b
  else if Text.is_empty a then b
  else if ends_with a "/" then a ++ b
  else a ++ "/" ++ b.

(** [name.lower().endswith(('.xlsx', '.xls'))]. *)
Definition extension_allowed (name : string) : bool :=
  ends_with (Text.lower name) ".xlsx" || ends_with (Text.lower name) ".xls".

(** The settings the route reads (app/config.py); the environment may
    override their defaults. *)
Record Settings : Type := {
  MAX_FILE_SIZE : N;
  UPLOAD_DIRECTORY : string
}.

Definition settings : Settings :=
  {| MAX_FILE_SIZE := 50 * 1024 * 1024; UPLOAD_DIRECTORY := "uploads" |}.

(** An uploaded file: its name and the bytes [file.read()] returns. *)
Record UploadFile : Type := {
  filename : string;
  content : string
}.

Record FileUploadResponse : Type := {
  response_filename : string;
  response_size : N;
  response_records_imported : nat;
  response_status : string;
  response_message : string
}.

(** What the route answers: a response, or an [HTTPException]. *)
Inductive Answer : Type :=
| Respond (r : FileUploadResponse)
| HTTPException (status_code : nat) (detail : string).

Section Handler.

Context {R : PyRuntime}.

(** What the route reads from the machine it runs on: the clock, the
    two formatters [t.strftime("%Y%m%d_%H%M%S")] and
    [f"{n / (1024*1024):.1f}"], whether [os.makedirs] raises for a path,
    and whether writing a file raises: then with the message, and with
    what is left at the path. *)
Record Host : Type := {
  time_at : nat -> Datetime;
  strftime : Datetime -> string;
  megabytes : N -> string;
  makedirs_error : string -> option string;
  save_error : string -> string -> option (string * option string)
}.

(** The state the route changes: the readings of the clock, the
    directories and files on disk, and the background tasks, each the
    [file_path] and [data_type] that [process_file] will be called with. *)
Record Server : Type := {
  time_reads : nat;
  directories : list string;
  files : list (string * string);
  tasks : list (string * string)
}.

Definition allowed_types : list string :=
  ["payments"; "receipts"; "policies"; "claims"; "customers"; "agents";
   "audit_logs"].

(** [os.makedirs(path, exist_ok=True)] that went through. *)
Definition made (dirs : list string) (path : string) : list string :=
  if existsb (String.eqb path) dirs then dirs else dirs ++ [path].

(** The files once [path] holds [data]: a file opened with "wb" loses
    what it held. *)
Definition written (fs : list (string * string)) (path data : string)
    : list (string * string) :=
  filter (fun f => negb (String.eqb (fst f) path)) fs ++ [(path, data)].

Definition upload_file (cfg : Settings) (host : Host)
    (data_type : string) (file : UploadFile) (s : Server) : Answer * Server :=
  if negb (existsb (String.eqb data_type) allowed_types) then
    (HTTPException 400
       ("Invalid data type. Allowed types: " ++ String.concat ", " allowed_types),
     s)
  else if negb (extension_allowed (filename file)) then
    (HTTPException 400 "Only XLSX and XLS files are allowed", s)
  else
    let file_size := N.of_nat (String.length (content file)) in
    if (MAX_FILE_SIZE cfg <? file_size)%N then
      (HTTPException 413
         ("File size exceeds maximum allowed size of "
          ++ megabytes host (MAX_FILE_SIZE cfg) ++ "MB"),
       s)
    else
      let upload_dir := path_join (UPLOAD_DIRECTORY cfg) data_type in
      match makedirs_error host upload_dir with
      | Some _ => (HTTPException 500 "Failed to upload file", s)
      | None =>
          let timestamp := strftime host (time_at host (time_reads s)) in
          let name := (data_type ++ "_" ++ timestamp ++ "_" ++ filename file)%string in
          let file_path := path_join upload_dir name in
          match save_error host file_path (content file) with
          | Some (_, remains) =>
              (HTTPException 500 "Failed to upload file",
               {| time_reads := S (time_reads s);
                  directories := made (directories s) upload_dir;
                  files := match remains with
                           | Some data => written (files s) file_path data
                           | None => files s
                           end;
                  tasks := tasks s |})
          | None =>
              (Respond
                 {| response_filename := name;
                    response_size := file_size;
                    response_records_imported := 0;
                    response_status := "processing";
                    response_message :=
                      "File uploaded successfully and is being processed for "
                      ++ data_type ++ " data" |},
               {| time_reads := S (time_reads s);
                  directories := made (directories s) upload_dir;
                  files := written (files s) file_path (content file);
                  tasks := tasks s ++ [(file_path, data_type)] |})
          end
      end.

End Handler.

End Route.

(** ** More sheets, and a machine for the route *)

Module MoreSample.
Import Sample.

(** An environment in which the file is no workbook. *)
Definition unreadable : Env :=
  env 1000 5 "import.xlsx" (Raise "File is not a zip file") (fun _ => None).

(** An environment in which a commit raises once an audit entry is
    pending, and not before. *)
Definition audit_locked (sheet : Sheet) : Env :=
  env 1000 5 "import.xlsx" (Ok sheet)
    (fun s =>
       if existsb (fun o => String.eqb (class_name (obj_class o)) "AuditLog") (pending s)
       then Some "database is locked"
       else None).

(** A payments sheet with an amount and nothing else, a customers sheet
    with a first name and nothing else, and a claims row whose approved
    amount is zero. *)
Definition amount_sheet : Sheet :=
  {| header := map LText ["Amount"]; body := [ [Some (CInt 5)] ] |}.

Definition first_name_sheet : Sheet :=
  {| header := map LText ["First Name"]; body := [ [Some (CStr "Ada")] ] |}.

Definition claims_sheet : Sheet :=
  {| header := map LText ["Claim Number"; "Approved Amount"];
     body := [ [Some (CStr "C1"); Some (CInt 0)] ] |}.

(** A sheet whose headers are the numbers of two years. *)
Definition years_sheet : Sheet :=
  {| header := [LOther; LOther];
     body := [ [Some (CInt 10); Some (CInt 12)] ] |}.

(** A sheet whose two data rows have no cell. *)
Definition blank_sheet : Sheet :=
  {| header := map LText ["Amount"]; body := [ [None]; [None] ] |}.

(** The first row of a sheet, prepared for a data type. *)
Abbreviation prepared_as data_type sheet :=
  (_prepare_record_data (row_at 0 sheet) data_type (on_disk sheet) world0).

(** The row loop over the payments sheet when the audit commit raises. *)
Abbreviation payments_loop_audit_locked :=
  (process_rows Payment "payments" (items payments_sheet) [] []
     (audit_locked payments_sheet) world0).

(** [t.strftime("%Y%m%d_%H%M%S")] for a timestamp in nanoseconds since
    the epoch: the civil date of its day, then the time of day. *)
Definition pad (width : nat) (n : Z) : string :=
  let s := Text.of_Z n in
  (string_of_list_ascii (repeat "0"%char (width - String.length s)) ++ s)%string.

Definition civil_of_days (days : Z) : Z * Z * Z :=
  let z := (days + 719468)%Z in
  let era := (z / 146097)%Z in
  let doe := (z - era * 146097)%Z in
  let yoe := ((doe - doe / 1460 + doe / 36524 - doe / 146096) / 365)%Z in
  let doy := (doe - (365 * yoe + yoe / 4 - yoe / 100))%Z in
  let mp := ((5 * doy + 2) / 153)%Z in
  let d := (doy - (153 * mp + 2) / 5 + 1)%Z in
  let m := (if mp <? 10 then mp + 3 else mp - 9)%Z in
  let y := (yoe + era * 400 + (if m <=? 2 then 1 else 0))%Z in
  (y, m, d).

Definition strftime_compact (t : Z) : string :=
  let secs := (t / 1000000000)%Z in
  let '(y, m, d) := civil_of_days (secs / 86400) in
  let rest := (secs mod 86400)%Z in
  (pad 4 y ++ pad 2 m ++ pad 2 d ++ "_"
   ++ pad 2 (rest / 3600) ++ pad 2 (rest mod 3600 / 60) ++ pad 2 (rest mod 60))%string.

(** [f"{n / (1024*1024):.1f}"] for a size below 2^53: the quotient is
    exact, and it is rounded to tenths, a tie to the even digit. *)
Definition megabytes_1f (n : N) : string :=
  let q := (n * 10 / 1048576)%N in
  let r := (n * 10 mod 1048576)%N in
  let tenths :=
    (if (524288 <? r) || ((r =? 524288) && N.odd q) then q + 1 else q)%N in
  (Text.of_Z (Z.of_N (tenths / 10)) ++ "." ++ Text.of_Z (Z.of_N (tenths mod 10)))%string.

(** A machine whose clock starts on 2023-11-14 at 22:13:20 and advances
    by a second at each reading, and whose disk takes everything. *)
Definition machine : Route.Host :=
  {| Route.time_at := fun n => ((Z.of_nat n + 1700000000) * 1000000000)%Z;
     Route.strftime := strftime_compact;
     Route.megabytes := megabytes_1f;
     Route.makedirs_error := fun _ => None;
     Route.save_error := fun _ _ => None |}.

Definition idle : Route.Server :=
  {| Route.time_reads := 0; Route.directories := []; Route.files := [];
     Route.tasks := [] |}.

(** A server that holds an earlier upload. *)
Definition busy : Route.Server :=
  {| Route.time_reads := 0;
     Route.directories := ["uploads/claims"];
     Route.files := [("uploads/claims/claims_20231114_221320_Old.xlsx", "PK..")];
     Route.tasks := [("uploads/claims/claims_20231114_221320_Old.xlsx", "claims")] |}.

(** A limit of four bytes, and uploads of a workbook name in capitals
    with four and with five bytes. *)
Definition tight : Route.Settings :=
  {| Route.MAX_FILE_SIZE := 4; Route.UPLOAD_DIRECTORY := "uploads" |}.

Definition book : Route.UploadFile :=
  {| Route.filename := "Book.XLSX"; Route.content := "PK34" |}.

Definition big_book : Route.UploadFile :=
  {| Route.filename := "Book.XLSX"; Route.content := "PK345" |}.

End MoreSample.

(** * Properties *)

(** ** Hexadecimal text *)

Module TextFacts.
Import Text.

Lemma hex_digit_lower (d : N) : is_lower_hex (Uuid.hex_digit d) = true.
Proof.
  destruct d as [|p]; [reflexivity|].
  do 4 (try destruct p as [p|p|]); reflexivity.
Qed.

Lemma all_chars_digits (k : nat) (n : N) :
  all_chars is_lower_hex (Uuid.digits k n) = true.
Proof.
  induction k as [|k IH]; cbn [Uuid.digits all_chars]; [reflexivity|].
  now rewrite hex_digit_lower, IH.
Qed.

Lemma length_digits (k : nat) (n : N) : String.length (Uuid.digits k n) = k.
Proof.
  induction k as [|k IH]; cbn [Uuid.digits String.length]; congruence.
Qed.

Lemma all_chars_substring (p : ascii -> bool) (s : string) :
  all_chars p s = true -> forall i m, all_chars p (substring i m s) = true.
Proof.
  induction s as [|c s IH]; intros H i m.
  - destruct i, m; exact H.
  - cbn [all_chars] in H. apply andb_true_iff in H as [Hc Hs].
    destruct i as [|i]; [destruct m as [|m]|]; cbn [substring all_chars].
    + reflexivity.
    + now rewrite Hc, IH.
    + now apply IH.
Qed.

Lemma length_prefix (s : string) :
  forall m, (m <= String.length s)%nat -> String.length (substring 0 m s) = m.
Proof.
  induction s as [|c s IH]; intros [|m] Hm; cbn [substring String.length] in *;
    try reflexivity; try lia.
  rewrite IH; lia.
Qed.

Lemma upper_char_hex (c : ascii) :
  is_lower_hex c = true -> is_upper_hex (upper_char c) = true.
Proof.
  destruct c as [[] [] [] [] [] [] [] []]; intros H;
    first [discriminate H | reflexivity].
Qed.

Lemma all_chars_upper (s : string) :
  all_chars is_lower_hex s = true -> all_chars is_upper_hex (upper s) = true.
Proof.
  induction s as [|c s IH]; cbn [all_chars upper map_chars]; [reflexivity|].
  intros H. apply andb_true_iff in H as [Hc Hs].
  rewrite upper_char_hex by exact Hc. now apply IH.
Qed.

Lemma length_map_chars (f : ascii -> ascii) (s : string) :
  String.length (map_chars f s) = String.length s.
Proof.
  induction s as [|c s IH]; cbn [map_chars String.length]; congruence.
Qed.

(** [uuid.uuid4().hex[:n]] is [n] lowercase hexadecimal digits, and its
    [.upper()] is [n] uppercase ones, for [n] up to 32. *)
Lemma hex_prefix_lower (n : nat) (u : N) :
  (n <= 32)%nat ->
  String.length (Uuid.hex_prefix n u) = n /\
  all_chars is_lower_hex (Uuid.hex_prefix n u) = true.
Proof.
  intros Hn. unfold Uuid.hex_prefix, Uuid.hex. split.
  - apply length_prefix. rewrite length_digits. exact Hn.
  - apply all_chars_substring, all_chars_digits.
Qed.

Lemma hex_prefix_upper (n : nat) (u : N) :
  (n <= 32)%nat ->
  String.length (upper (Uuid.hex_prefix n u)) = n /\
  all_chars is_upper_hex (upper (Uuid.hex_prefix n u)) = true.
Proof.
  intros Hn. destruct (hex_prefix_lower n u Hn) as [Hl Hc]. split.
  - unfold upper. now rewrite length_map_chars.
  - now apply all_chars_upper.
Qed.

End TextFacts.

(** ** Field expressions *)

Section Fields.

Context {R : PyRuntime}.

Lemma quiet_ret {A} (a : A) : quiet (ret a).
Proof. intros env w. split; reflexivity. Qed.

Lemma quiet_lift {A} (r : Result A) : quiet (lift r).
Proof. intros env w. split; reflexivity. Qed.

Lemma quiet_uuid4 : quiet uuid4.
Proof. intros env w. split; reflexivity. Qed.

Lemma quiet_bind {A B} (m : M A) (k : A -> M B) :
  quiet m -> (forall a, quiet (k a)) -> quiet (bind m k).
Proof.
  intros Hm Hk env w. unfold bind.
  specialize (Hm env w). destruct (m env w) as [[a|msg] w1]; cbn [snd] in *.
  - destruct Hm as [Hm1 Hm2], (Hk a env w1) as [H1 H2]. split; congruence.
  - exact Hm.
Qed.

Lemma quiet_text row k d : quiet (text row k d).
Proof. apply quiet_ret. Qed.

Lemma quiet_text_or_uid row k prefix n : quiet (text_or_uid row k prefix n).
Proof. apply quiet_bind; [apply quiet_uuid4 | intros; apply quiet_ret]. Qed.

Lemma quiet_text_or_address row k prefix n suffix :
  quiet (text_or_address row k prefix n suffix).
Proof. apply quiet_bind; [apply quiet_uuid4 | intros; apply quiet_ret]. Qed.

Lemma quiet_opt_text row k : quiet (opt_text row k).
Proof. unfold opt_text. destruct (truthy (get row k)); apply quiet_ret. Qed.

Lemma quiet_number row k : quiet (number row k).
Proof. apply quiet_bind; [apply quiet_lift | intros; apply quiet_ret]. Qed.

Lemma quiet_count row k : quiet (count row k).
Proof. apply quiet_bind; [apply quiet_lift | intros; apply quiet_ret]. Qed.

Lemma quiet_date row k t : quiet (date row k t).
Proof. apply quiet_bind; [apply quiet_lift | intros; apply quiet_ret]. Qed.

Lemma quiet_opt_number row k : quiet (opt_number row k).
Proof.
  unfold opt_number. destruct (get row k) as [c|]; [destruct (py_bool c)|];
    try apply quiet_ret.
  apply quiet_bind; [apply quiet_lift | intros; apply quiet_ret].
Qed.

Lemma quiet_opt_count row k : quiet (opt_count row k).
Proof.
  unfold opt_count. destruct (get row k) as [c|]; [destruct (py_bool c)|];
    try apply quiet_ret.
  apply quiet_bind; [apply quiet_lift | intros; apply quiet_ret].
Qed.

Lemma quiet_opt_date row k : quiet (opt_date row k).
Proof.
  unfold opt_date. destruct (get row k) as [c|]; [destruct (py_bool c)|];
    try apply quiet_ret.
  apply quiet_bind; [apply quiet_lift | intros; apply quiet_ret].
Qed.

Lemma quiet_flag row k : quiet (flag row k).
Proof. apply quiet_ret. Qed.

Lemma quiet_dict (fields : list (string * M Value)) :
  Forall (fun f => quiet (snd f)) fields -> quiet (dict fields).
Proof.
  induction 1 as [|[k e] rest He _ IH]; cbn [dict]; [apply quiet_ret|].
  apply quiet_bind; [exact He|]. intros v.
  apply quiet_bind; [exact IH|]. intros d. apply quiet_ret.
Qed.

(** The value a dict display gives to [k] is the value of the first
    field written with that key, computed in some state. *)
Lemma attr_dict (fields : list (string * M Value)) :
  forall env w d w' k,
    dict fields env w = (Ok d, w') ->
    match find (fun f => String.eqb (fst f) k) fields with
    | Some f => exists v w0 w1, snd f env w0 = (Ok v, w1) /\ attr d k = Some v
    | None => attr d k = None
    end.
Proof.
  induction fields as [|[k0 e] rest IH]; intros env w d w' k H.
  - cbn in H. injection H as <- <-. reflexivity.
  - cbn [dict] in H. unfold bind at 1 in H.
    destruct (e env w) as [[v|msg] w1] eqn:He; [|discriminate H].
    unfold bind at 1 in H.
    destruct (dict rest env w1) as [[d1|msg] w2] eqn:Hd; [|discriminate H].
    cbn in H. injection H as <- <-.
    cbn [find fst attr]. destruct (String.eqb k0 k).
    + exists v, w, w1. split; [exact He | reflexivity].
    + exact (IH env w1 d1 w2 k Hd).
Qed.

(** The keys of the dict are the keys written, in order. *)
Lemma keys_dict (fields : list (string * M Value)) :
  forall env w d w',
    dict fields env w = (Ok d, w') -> map fst d = map fst fields.
Proof.
  induction fields as [|[k0 e] rest IH]; intros env w d w' H.
  - cbn in H. injection H as <- <-. reflexivity.
  - cbn [dict] in H. unfold bind at 1 in H.
    destruct (e env w) as [[v|msg] w1]; [|discriminate H].
    unfold bind at 1 in H.
    destruct (dict rest env w1) as [[d1|msg] w2] eqn:Hd; [|discriminate H].
    cbn in H. injection H as <- <-. cbn [map fst]. f_equal. exact (IH _ _ _ _ Hd).
Qed.

End Fields.

(** ** The builders, field by field *)

Section Builders.

Context {R : PyRuntime}.

Lemma prepare_dispatch (dt : string) (m : Model) (row : Series) :
  model_mapping dt = Some m ->
  _prepare_record_data row dt =
  (current_time <- now ;; builder m row current_time).
Proof.
  unfold model_mapping, _prepare_record_data. intros H.
  repeat match type of H with
         | (if String.eqb ?a ?b then _ else _) = _ =>
             destruct (String.eqb a b) eqn:?
         end;
    first [discriminate H | injection H as <-; reflexivity].
Qed.

(** Preparing a row reads the clock once, first, and hands that reading
    to the builder. *)
Lemma prepare_runs_builder (dt : string) (m : Model) (row : Series) env w :
  model_mapping dt = Some m ->
  _prepare_record_data row dt env w =
  builder m row (now_at env (clock_reads w))
    env {| clock_reads := S (clock_reads w); uuid_draws := uuid_draws w; db := db w |}.
Proof. intros H. now rewrite (prepare_dispatch dt m row H). Qed.

Ltac eqb_step H :=
  match type of H with
  | context [String.eqb ?a ?b] =>
      let v := eval vm_compute in (String.eqb a b) in
      change (String.eqb a b) with v in H; cbn iota in H
  end.

Ltac open_builder H :=
  unfold builder, _prepare_payment_data, _prepare_receipt_data,
    _prepare_policy_data, _prepare_claim_data, _prepare_customer_data,
    _prepare_agent_data, _prepare_audit_log_data in H;
  cbv zeta in H.

(** [field_in H name]: from [H : builder ... = (Ok d, w')] to the field
    expression written for [name] and the value it gave. *)
Ltac field_in H name :=
  open_builder H;
  apply attr_dict with (k := name) in H;
  repeat (cbn [find fst] in H; eqb_step H);
  cbn [snd] in H.

Ltac each_field Hk :=
  cbn [In] in Hk;
  repeat match type of Hk with
         | _ \/ _ => destruct Hk as [Hk|Hk]
         end;
  [subst .. | contradiction].

Ltac run_field Hv :=
  unfold flag, text, text_or_uid, text_or_address, bind, lift, uuid4, ret in Hv.

Lemma builder_date (m : Model) (k : string) row ct env w d w' :
  In k (required_dates m) ->
  builder m row ct env w = (Ok d, w') ->
  exists t, to_datetime (get_or row k (CTime ct)) = Ok t /\
            attr d k = Some (time_value t).
Proof.
  intros Hk H.
  destruct m; cbn [required_dates In] in Hk;
    repeat (destruct Hk as [<-|Hk]); try contradiction;
    match goal with |- context [attr d ?key] => field_in H key end;
    destruct H as (v & w0 & w1 & Hv & ->);
    unfold date, bind, lift in Hv;
    destruct (to_datetime _) as [t|msg]; try discriminate Hv;
    exists t; (split; [reflexivity|]); run_field Hv; congruence.
Qed.

Lemma builder_amount (m : Model) (k : string) row ct env w d w' :
  In k (required_amounts m) ->
  builder m row ct env w = (Ok d, w') ->
  exists x, py_float (get_or row k (CInt 0)) = Ok x /\
            attr d k = Some (VFloat x).
Proof.
  intros Hk H.
  destruct m; cbn [required_amounts In] in Hk;
    repeat (destruct Hk as [<-|Hk]); try contradiction;
    match goal with |- context [attr d ?key] => field_in H key end;
    destruct H as (v & w0 & w1 & Hv & ->);
    unfold number, bind, lift in Hv;
    destruct (py_float _) as [x|msg]; try discriminate Hv;
    exists x; (split; [reflexivity|]); run_field Hv; congruence.
Qed.

Lemma builder_optional_amount (m : Model) (k : string) row ct env w d w' :
  In k (optional_amounts m) ->
  builder m row ct env w = (Ok d, w') ->
  match get row k with
  | Some c =>
      if py_bool c
      then exists x, py_float c = Ok x /\ attr d k = Some (VFloat x)
      else attr d k = Some VNone
  | None => attr d k = Some VNone
  end.
Proof.
  intros Hk H.
  destruct m; cbn [optional_amounts In] in Hk;
    repeat (destruct Hk as [<-|Hk]); try contradiction;
    match goal with |- context [attr d ?key] => field_in H key end;
    destruct H as (v & w0 & w1 & Hv & ->);
    unfold opt_number, bind, lift in Hv;
    (destruct (get row _) as [c|]; [destruct (py_bool c)|]);
    try (run_field Hv; congruence);
    destruct (py_float c) as [x|msg]; try discriminate Hv;
    exists x; (split; [reflexivity|]); run_field Hv; congruence.
Qed.

Lemma builder_optional_count (m : Model) (k : string) row ct env w d w' :
  In k (optional_counts m) ->
  builder m row ct env w = (Ok d, w') ->
  match get row k with
  | Some c =>
      if py_bool c
      then exists n, py_int c = Ok n /\ attr d k = Some (VInt n)
      else attr d k = Some VNone
  | None => attr d k = Some VNone
  end.
Proof.
  intros Hk H.
  destruct m; cbn [optional_counts In] in Hk;
    repeat (destruct Hk as [<-|Hk]); try contradiction;
    match goal with |- context [attr d ?key] => field_in H key end;
    destruct H as (v & w0 & w1 & Hv & ->);
    unfold opt_count, bind, lift in Hv;
    (destruct (get row _) as [c|]; [destruct (py_bool c)|]);
    try (run_field Hv; congruence);
    destruct (py_int c) as [n|msg]; try discriminate Hv;
    exists n; (split; [reflexivity|]); run_field Hv; congruence.
Qed.

Lemma builder_flag (m : Model) (k : string) row ct env w d w' :
  In k (flags m) ->
  builder m row ct env w = (Ok d, w') ->
  attr d k = Some (VBool (py_bool (get_or row k (CBool false)))).
Proof.
  intros Hk H.
  destruct m; cbn [flags In] in Hk;
    repeat (destruct Hk as [<-|Hk]); try contradiction;
    match goal with |- context [attr d ?key] => field_in H key end;
    destruct H as (v & w0 & w1 & Hv & ->);
    run_field Hv; congruence.
Qed.

Lemma builder_id (m : Model) row ct env w d w' :
  builder m row ct env w = (Ok d, w') ->
  exists u,
    attr d (id_field m) =
    Some (VStr (py_str (get_or row (id_field m)
                          (CStr (id_prefix m ++ Text.upper (Uuid.hex_prefix 8 u)))))).
Proof.
  intros H.
  destruct m; cbn [id_field id_prefix];
    match goal with |- context [attr d ?key] => field_in H key end;
    destruct H as (v & w0 & w1 & Hv & ->);
    exists (uuid4_at env (uuid_draws w0)); run_field Hv; congruence.
Qed.

Lemma builder_email (m : Model) (who : string) row ct env w d w' :
  (m = Customer /\ who = "customer") \/ (m = Agent /\ who = "agent") ->
  builder m row ct env w = (Ok d, w') ->
  exists u,
    attr d "email" =
    Some (VStr (py_str (get_or row "email"
                          (CStr (who ++ Uuid.hex_prefix 8 u ++ "@example.com"))))).
Proof.
  intros [[-> ->]|[-> ->]] H;
    field_in H "email";
    destruct H as (v & w0 & w1 & Hv & ->);
    exists (uuid4_at env (uuid_draws w0)); run_field Hv; congruence.
Qed.

End Builders.

(** ** The row loop *)

Section Loop.

Context {R : PyRuntime}.

Lemma quiet_builder (m : Model) row ct : quiet (builder m row ct).
Proof.
  destruct m; cbn [builder];
    unfold _prepare_payment_data, _prepare_receipt_data, _prepare_policy_data,
      _prepare_claim_data, _prepare_customer_data, _prepare_agent_data,
      _prepare_audit_log_data;
    cbv zeta; apply quiet_dict;
    repeat (constructor;
            [cbn [snd];
             first [ apply quiet_ret | apply quiet_text | apply quiet_text_or_uid
                   | apply quiet_text_or_address | apply quiet_opt_text
                   | apply quiet_number | apply quiet_opt_number
                   | apply quiet_count | apply quiet_opt_count
                   | apply quiet_date | apply quiet_opt_date | apply quiet_flag ]
            |]);
    constructor.
Qed.

(** Preparing a row leaves the session alone and reads the clock once,
    whether it returns or raises. *)
Lemma prepare_session (dt : string) (row : Series) env w :
  db (snd (_prepare_record_data row dt env w)) = db w /\
  clock_reads (snd (_prepare_record_data row dt env w)) = S (clock_reads w).
Proof.
  destruct (model_mapping dt) as [m|] eqn:Hm.
  - rewrite (prepare_runs_builder dt m row env w Hm).
    destruct (quiet_builder m row (now_at env (clock_reads w)) env
                {| clock_reads := S (clock_reads w);
                   uuid_draws := uuid_draws w; db := db w |}) as [H1 H2].
    split; [exact H1 | exact H2].
  - unfold model_mapping in Hm. unfold _prepare_record_data, bind, now.
    repeat match type of Hm with
           | (if String.eqb ?a ?b then _ else _) = _ =>
               destruct (String.eqb a b); [discriminate Hm|]
           end.
    split; reflexivity.
Qed.

Lemma construct_keys (m : Model) (d : Dict) :
  forallb (fun k => existsb (String.eqb k) (mapped_columns m)) (map fst d) = true ->
  construct m d = Ok {| obj_class := m; obj_attrs := d |}.
Proof.
  unfold construct. intros H.
  assert (Hf : find (fun kv => negb (existsb (String.eqb (fst kv)) (mapped_columns m))) d
               = None).
  { induction d as [|[k v] d IH]; [reflexivity|].
    cbn [map fst forallb] in H. apply andb_true_iff in H as [Hk Hd].
    cbn [find fst]. rewrite Hk. cbn [negb]. exact (IH Hd). }
  now rewrite Hf.
Qed.

(** Every dict a builder returns is accepted by its model class: the
    keys the builder writes are columns of the class. *)
Lemma builder_constructs (m : Model) row ct env w d w' :
  builder m row ct env w = (Ok d, w') ->
  construct m d = Ok {| obj_class := m; obj_attrs := d |}.
Proof.
  intros H. apply construct_keys.
  destruct m; cbn [builder] in H;
    unfold _prepare_payment_data, _prepare_receipt_data, _prepare_policy_data,
      _prepare_claim_data, _prepare_customer_data, _prepare_agent_data,
      _prepare_audit_log_data in H;
    cbv zeta in H; apply keys_dict in H; rewrite H; vm_compute; reflexivity.
Qed.

(** One turn of the loop, by what preparing the row gives. *)
Lemma process_row_eq (m : Model) (dt : string) index row p e env w :
  process_row m dt index row p e env w =
  match _prepare_record_data row dt env w with
  | (Ok d, w1) =>
      match construct m d with
      | Ok record => (Ok (p ++ [record], e), with_db w1 (added (db w1) record))
      | Raise msg => (Ok (p, e ++ [row_error index msg]), w1)
      end
  | (Raise msg, w1) => (Ok (p, e ++ [row_error index msg]), w1)
  end.
Proof.
  unfold process_row, try_except, bind at 1.
  destruct (_prepare_record_data row dt env w) as [[d|msg] w1]; [|reflexivity].
  unfold bind at 1, lift. destruct (construct m d) as [record|msg]; reflexivity.
Qed.

(** A turn of the loop never raises: it adds one record and no error, or
    one error and no record. *)
Lemma process_row_cases (m : Model) (dt : string) index row p e env w :
  exists w',
    (exists record,
        process_row m dt index row p e env w = (Ok (p ++ [record], e), w') /\
        db w' = added (db w) record) \/
    (exists msg,
        process_row m dt index row p e env w = (Ok (p, e ++ [row_error index msg]), w') /\
        db w' = db w).
Proof.
  rewrite process_row_eq.
  destruct (prepare_session dt row env w) as [Hdb _].
  destruct (_prepare_record_data row dt env w) as [[d|msg] w1]; cbn [snd] in Hdb.
  - destruct (construct m d) as [record|msg].
    + eexists. left. exists record. split; [reflexivity|]. cbn. now rewrite Hdb.
    + exists w1. right. exists msg. split; [reflexivity | exact Hdb].
  - exists w1. right. exists msg. split; [reflexivity | exact Hdb].
Qed.

(** The loop never raises.  It extends the two lists it was given, by
    what it would have collected from empty lists; each row adds to
    exactly one of them; and the records collected are added to the
    session in order. *)
Lemma process_rows_spec (m : Model) (dt : string) (items : list (Z * Series)) :
  forall p e env w,
  exists p' e' w',
    process_rows m dt items p e env w = (Ok (p ++ p', e ++ e'), w') /\
    process_rows m dt items [] [] env w = (Ok (p', e'), w') /\
    List.length p' + List.length e' = List.length items /\
    db w' = fold_left added p' (db w).
Proof.
  induction items as [|[index row] rest IH]; intros p e env w.
  - exists [], [], w. cbn. rewrite !app_nil_r. repeat split; reflexivity.
  - cbn [process_rows]. unfold bind at 1 2. rewrite !process_row_eq.
    destruct (prepare_session dt row env w) as [Hdb _].
    destruct (_prepare_record_data row dt env w) as [[d|msg] w0]; cbn [snd] in Hdb;
      [destruct (construct m d) as [record|msg]|]; cbn [fst snd app].
    + destruct (IH (p ++ [record]) e env (with_db w0 (added (db w0) record)))
        as (p' & e' & w' & H1 & H2 & H3 & H4).
      destruct (IH [record] [] env (with_db w0 (added (db w0) record)))
        as (p2 & e2 & w2 & G1 & G2 & _ & _).
      rewrite H2 in G2. injection G2 as <- <- <-.
      exists (record :: p'), e', w'. rewrite H1, G1, <- app_assoc.
      repeat split; cbn [List.length fold_left app]; try lia.
      rewrite H4. cbn [with_db db]. now rewrite Hdb.
    + destruct (IH p (e ++ [row_error index msg]) env w0)
        as (p' & e' & w' & H1 & H2 & H3 & H4).
      destruct (IH [] [row_error index msg] env w0)
        as (p2 & e2 & w2 & G1 & G2 & _ & _).
      rewrite H2 in G2. injection G2 as <- <- <-.
      exists p', (row_error index msg :: e'), w'. rewrite H1, G1, <- app_assoc.
      repeat split; cbn [List.length fold_left app]; try lia.
      now rewrite H4, Hdb.
    + destruct (IH p (e ++ [row_error index msg]) env w0)
        as (p' & e' & w' & H1 & H2 & H3 & H4).
      destruct (IH [] [row_error index msg] env w0)
        as (p2 & e2 & w2 & G1 & G2 & _ & _).
      rewrite H2 in G2. injection G2 as <- <- <-.
      exists p', (row_error index msg :: e'), w'. rewrite H1, G1, <- app_assoc.
      repeat split; cbn [List.length fold_left app]; try lia.
      now rewrite H4, Hdb.
Qed.

(** The loop over [xs ++ ys] is the loop over [xs] followed by the loop
    over [ys]. *)
Lemma process_rows_app (m : Model) (dt : string) (xs ys : list (Z * Series)) :
  forall p e env w p1 e1 w1,
    process_rows m dt xs p e env w = (Ok (p1, e1), w1) ->
    process_rows m dt (xs ++ ys) p e env w = process_rows m dt ys p1 e1 env w1.
Proof.
  induction xs as [|[index row] rest IH]; intros p e env w p1 e1 w1 H.
  - cbn in H. injection H as <- <- <-. reflexivity.
  - cbn [app process_rows] in *. unfold bind at 1 in H. unfold bind at 1.
    destruct (process_row m dt index row p e env w) as [[acc|msg] w0];
      [|discriminate H].
    exact (IH _ _ _ _ _ _ _ H).
Qed.

(** The loop reads the clock once for each row. *)
Lemma process_rows_clock (m : Model) (dt : string) (items : list (Z * Series)) :
  forall p e env w,
    clock_reads (snd (process_rows m dt items p e env w)) =
    clock_reads w + List.length items.
Proof.
  induction items as [|[index row] rest IH]; intros p e env w.
  - cbn. lia.
  - cbn [process_rows]. unfold bind at 1. rewrite process_row_eq.
    destruct (prepare_session dt row env w) as [_ Hclock].
    destruct (_prepare_record_data row dt env w) as [[d|msg] w0]; cbn [snd] in Hclock;
      [destruct (construct m d) as [record|msg]|];
      rewrite IH; cbn [with_db clock_reads List.length]; lia.
Qed.

End Loop.

(** ** The import *)

Section Pipeline.

Context {R : PyRuntime}.

Lemma log_import_audit_eq (dt : string) (n k : nat) env w :
  _log_import_audit dt n k env w = (Ok tt, after_audit dt n k env w (db w)).
Proof.
  unfold _log_import_audit, try_except, bind, uuid4, now, lift.
  rewrite construct_keys by (vm_compute; reflexivity).
  unfold db_add, db_commit, after_audit, commit_tried, with_db, audit_object.
  cbn [db clock_reads uuid_draws].
  destruct (commit_error env _); reflexivity.
Qed.

Lemma fold_added (l : list Obj) :
  forall s,
    pending (fold_left added l s) = pending s ++ l /\
    stored (fold_left added l s) = stored s /\
    calls (fold_left added l s) = calls s ++ map Add l.
Proof.
  induction l as [|o l IH]; intros s; cbn [fold_left map].
  - rewrite !app_nil_r. repeat split.
  - destruct (IH (added s o)) as (H1 & H2 & H3). rewrite H1, H2, H3.
    cbn [added pending stored calls]. rewrite <- !app_assoc. repeat split.
Qed.

(** [process_file], once the file is read and the model class found, by
    how the row loop and the batch commit went. *)
Lemma process_file_eq env w path dt sheet df m recs errs w1 :
  workbook env path = Ok sheet ->
  _clean_dataframe (frame_of sheet) = Ok df ->
  model_mapping dt = Some m ->
  process_rows m dt (iterrows df) [] [] env w = (Ok (recs, errs), w1) ->
  process_file path dt env w =
  match batch_commit_error env (db w1) recs with
  | Some msg => (Raise msg, with_db w1 (rolled_back (commit_failed (db w1))))
  | None =>
      (Ok {| records_imported := List.length recs;
             errors := errs;
             status := match errs with
                       | [] => "completed"
                       | _ :: _ => "completed_with_errors"
                       end |},
       after_audit dt (List.length recs) (List.length errs) env w1
         (after_batch (db w1) recs))
  end.
Proof.
  intros Hfile Hclean Hm Hrows.
  unfold process_file, try_except, bind at 1, read_excel. rewrite Hfile.
  unfold bind at 1, lift at 1. rewrite Hclean.
  unfold bind at 1. rewrite Hm. unfold ret at 1.
  unfold bind at 1. rewrite Hrows. cbn [fst snd].
  unfold bind at 1, batch_commit_error, after_batch.
  destruct recs as [|r recs'].
  - unfold ret at 1, bind at 1. rewrite log_import_audit_eq. reflexivity.
  - unfold db_commit. destruct (commit_error env (db w1)) as [msg|].
    + reflexivity.
    + unfold bind at 1. rewrite log_import_audit_eq. reflexivity.
Qed.

(** Without a readable file, a header that can be cleaned and a known
    data type nothing is returned. *)
Lemma process_file_returns env w path dt r w' :
  process_file path dt env w = (Ok r, w') ->
  exists sheet df m,
    workbook env path = Ok sheet /\
    _clean_dataframe (frame_of sheet) = Ok df /\
    model_mapping dt = Some m.
Proof.
  unfold process_file, try_except, bind at 1, read_excel.
  destruct (workbook env path) as [sheet|msg]; [|discriminate].
  unfold bind at 1, lift at 1.
  destruct (_clean_dataframe (frame_of sheet)) as [df|msg] eqn:Hclean; [|discriminate].
  unfold bind at 1.
  destruct (model_mapping dt) as [m|]; [|discriminate].
  intros _. now exists sheet, df, m.
Qed.

(** *** The frame the loop runs over *)

Lemma length_filter_enumerate {A} (keep : list A -> bool) (l : list (list A)) :
  forall i,
    List.length (filter (fun r => keep (snd r)) (enumerate_from i l)) =
    List.length (filter keep l).
Proof.
  induction l as [|x l IH]; intros i; cbn [enumerate_from filter snd]; [reflexivity|].
  destruct (keep x); cbn [List.length]; now rewrite IH.
Qed.

(** The cleaning returns when a header of the sheet is text, and then the
    renamed headers and the filled rows that have an entry. *)
Lemma clean_inv (sheet : Sheet) df :
  _clean_dataframe (frame_of sheet) = Ok df ->
  existsb is_text (header sheet) = true /\
  df = {| columns := map renamed (header sheet);
          rows := map (fun r => (fst r, map fill (snd r)))
                      (filter (fun r => negb (all_nan (snd r)))
                              (enumerate_from 0 (body sheet))) |}.
Proof.
  unfold _clean_dataframe, fillna_empty, normalize_columns, dropna_all, frame_of.
  cbn [rows columns].
  destruct (existsb is_text (header sheet)); [|discriminate].
  intros H. injection H as <-. split; reflexivity.
Qed.

Lemma clean_text_header (sheet : Sheet) :
  existsb is_text (header sheet) = true ->
  exists df, _clean_dataframe (frame_of sheet) = Ok df.
Proof.
  intros H.
  unfold _clean_dataframe, fillna_empty, normalize_columns, dropna_all, frame_of.
  cbn [rows columns]. rewrite H. eexists. reflexivity.
Qed.

(** The rows left by the cleaning are the rows of the sheet that have an
    entry. *)
Lemma clean_rows_count (sheet : Sheet) df :
  _clean_dataframe (frame_of sheet) = Ok df ->
  List.length (rows df) =
  List.length (filter (fun cells => negb (all_nan cells)) (body sheet)).
Proof.
  intros H. apply clean_inv in H as [_ ->].
  cbn [rows columns]. rewrite length_map.
  exact (length_filter_enumerate (fun cells => negb (all_nan cells)) (body sheet) 0%Z).
Qed.

Lemma iterrows_count (df : DataFrame (option string) Cell) :
  List.length (iterrows df) = List.length (rows df).
Proof. unfold iterrows. apply length_map. Qed.

Lemma in_enumerate {A} (l : list A) :
  forall i index x,
    In (index, x) (enumerate_from i l) ->
    (i <= index)%Z /\ nth_error l (Z.to_nat (index - i)) = Some x.
Proof.
  induction l as [|y l IH]; intros i index x H; cbn [enumerate_from In] in H.
  - contradiction.
  - destruct H as [H|H].
    + injection H as <- <-. split; [lia|]. now rewrite Z.sub_diag.
    + destruct (IH _ _ _ H) as [Hle Hnth]. split; [lia|].
      replace (Z.to_nat (index - i)) with (S (Z.to_nat (index - (i + 1)))) by lia.
      exact Hnth.
Qed.

(** The label the loop sees for a row is the position of that row among
    the rows of the sheet, counted from 0, the blank rows included; and
    the row carries the entries of that sheet row under the renamed
    headers, NaN as the empty text. *)
Lemma iterrows_label (sheet : Sheet) df (index : Z) (row : Series) :
  _clean_dataframe (frame_of sheet) = Ok df ->
  In (index, row) (iterrows df) ->
  exists cells,
    (0 <= index)%Z /\
    nth_error (body sheet) (Z.to_nat index) = Some cells /\
    all_nan cells = false /\
    row = labelled (map renamed (header sheet)) (map fill cells).
Proof.
  intros Hclean. apply clean_inv in Hclean as [_ ->].
  unfold iterrows.
  cbn [rows columns]. rewrite map_map. intros H.
  apply in_map_iff in H as ([i cells] & Heq & Hin). cbn [fst snd] in Heq.
  injection Heq as <- <-.
  apply filter_In in Hin as [Hin Hkeep].
  apply in_enumerate in Hin as [Hle Hnth]. rewrite Z.sub_0_r in Hnth.
  exists cells. repeat split; try assumption.
  now apply negb_true_iff in Hkeep.
Qed.

(** *** The claims about the import *)

(** C1 (amended).  For every import whose file parses, whose frame is
    cleaned without an error (a header of the sheet is text) and whose
    data type is one of the seven, the audit entry is emitted exactly once
    when the batch commit does not raise (or nothing was staged): after the
    additions of the staged records and their commit, the session is asked
    for one addition, of the audit entry, and one more commit, and the
    entry is stored when that commit goes through.  When the batch commit
    raises, the error is fatal: the session is rolled back, the error goes
    to the caller, nothing is stored, and no audit entry is emitted. *)
Theorem audit_entry_unless_commit_fails env w path dt sheet df m recs errs w1 :
  workbook env path = Ok sheet ->
  _clean_dataframe (frame_of sheet) = Ok df ->
  model_mapping dt = Some m ->
  process_rows m dt (iterrows df) [] [] env w = (Ok (recs, errs), w1) ->
  let a := audit_object dt (List.length recs) (List.length errs) env w1 in
  let s := added (after_batch (db w1) recs) a in
  match batch_commit_error env (db w1) recs with
  | None =>
      exists r w',
        process_file path dt env w = (Ok r, w') /\
        calls (db w') =
          calls (db w) ++ map Add recs
            ++ match recs with [] => [] | _ :: _ => [Commit true] end
            ++ [Add a; Commit (commit_passes env s)] /\
        (commit_passes env s = true ->
         stored (db w') = stored (db w) ++ pending (db w) ++ recs ++ [a] /\
         pending (db w') = [])
  | Some msg =>
      exists w',
        process_file path dt env w = (Raise msg, w') /\
        calls (db w') = calls (db w) ++ map Add recs ++ [Commit false; Rollback] /\
        stored (db w') = stored (db w) /\
        pending (db w') = []
  end.
Proof.
  intros Hfile Hclean Hm Hrows a s.
  rewrite (process_file_eq env w path dt sheet df m recs errs w1 Hfile Hclean Hm Hrows).
  destruct (process_rows_spec m dt (iterrows df)
              [] [] env w) as (p' & e' & w' & H1 & _ & _ & Hdb).
  cbn [app] in H1. rewrite Hrows in H1. injection H1 as <- <- <-.
  destruct (fold_added recs (db w)) as (Hp & Hs & Hc). rewrite <- Hdb in Hp, Hs, Hc.
  destruct (batch_commit_error env (db w1) recs) as [msg|] eqn:Hbatch.
  - eexists. split; [reflexivity|].
    cbn [with_db db rolled_back commit_failed calls stored pending].
    rewrite Hc, Hs, <- !app_assoc. repeat split.
  - eexists _, _. split; [reflexivity|].
    unfold after_audit. cbn [db]. fold a. fold s.
    unfold commit_tried, commit_passes.
    assert (Hcalls : calls s = calls (db w) ++ map Add recs
              ++ match recs with [] => [] | _ :: _ => [Commit true] end ++ [Add a]).
    { unfold s, after_batch. destruct recs; cbn [added committed calls];
        rewrite Hc, <- ?app_assoc; reflexivity. }
    assert (Hst : stored s ++ pending s = stored (db w) ++ pending (db w) ++ recs ++ [a]).
    { unfold s, after_batch. destruct recs; cbn [added committed stored pending];
        rewrite ?Hs, ?Hp, <- ?app_assoc; reflexivity. }
    destruct (commit_error env s) as [msg|]; cbn [committed commit_failed calls stored pending].
    + split; [|discriminate]. rewrite Hcalls, <- !app_assoc. reflexivity.
    + split; [|intros _; split; [exact Hst | reflexivity]].
      rewrite Hcalls, <- !app_assoc. reflexivity.
Qed.

(** C4.  When [process_file] returns, [records_imported] plus the number
    of errors is the number of rows of the cleaned frame, which is the
    number of data rows of the sheet that are not blank throughout. *)
Theorem imported_plus_errors env w path dt r w' :
  process_file path dt env w = (Ok r, w') ->
  exists sheet df,
    workbook env path = Ok sheet /\
    _clean_dataframe (frame_of sheet) = Ok df /\
    records_imported r + List.length (errors r) = List.length (rows df) /\
    List.length (rows df) =
      List.length (filter (fun cells => negb (all_nan cells)) (body sheet)).
Proof.
  intros H.
  destruct (process_file_returns env w path dt r w' H)
    as (sheet & df & m & Hfile & Hclean & Hm).
  exists sheet, df. split; [exact Hfile|]. split; [exact Hclean|].
  split; [|now apply clean_rows_count].
  destruct (process_rows_spec m dt (iterrows df)
              [] [] env w) as (recs & errs & w1 & Hrows & _ & Hlen & _).
  cbn [app] in Hrows.
  rewrite (process_file_eq env w path dt sheet df m recs errs w1 Hfile Hclean Hm Hrows) in H.
  destruct (batch_commit_error env (db w1) recs); [discriminate H|].
  injection H as <- _. cbn [records_imported errors].
  now rewrite Hlen, iterrows_count.
Qed.

(** C5.  When the row loop is through and the batch commit does not fail,
    [process_file] returns the number of staged records, the row errors,
    and a status that is "completed" exactly when there is no row error
    and "completed_with_errors" otherwise; so too when no record was
    staged and every row failed. *)
Theorem status_by_errors env w path dt sheet df m recs errs w1 :
  workbook env path = Ok sheet ->
  _clean_dataframe (frame_of sheet) = Ok df ->
  model_mapping dt = Some m ->
  process_rows m dt (iterrows df) [] [] env w = (Ok (recs, errs), w1) ->
  batch_commit_error env (db w1) recs = None ->
  exists r w',
    process_file path dt env w = (Ok r, w') /\
    records_imported r = List.length recs /\
    errors r = errs /\
    (status r = "completed" <-> errors r = []) /\
    (status r = "completed_with_errors" <-> errors r <> []) /\
    (recs = [] -> errs <> [] ->
     records_imported r = 0 /\ status r = "completed_with_errors").
Proof.
  intros Hfile Hclean Hm Hrows Hbatch.
  rewrite (process_file_eq env w path dt sheet df m recs errs w1 Hfile Hclean Hm Hrows), Hbatch.
  eexists _, _. split; [reflexivity|].
  cbn [records_imported errors status].
  repeat split; try (destruct errs; intros; congruence).
  subst recs. reflexivity.
Qed.

(** C6.  A row whose preparation raises puts one entry in [errors],
    "Row n: message" with [n] one more than the position of the row among
    the data rows of the sheet; its record is not staged and the session
    is not touched; and the rows after it are processed as the loop
    processes them from the state the failed row left. *)
Theorem failed_row_is_isolated env w dt m sheet df before index row after
    recs errs w1 msg w2 :
  _clean_dataframe (frame_of sheet) = Ok df ->
  iterrows df = before ++ (index, row) :: after ->
  process_rows m dt before [] [] env w = (Ok (recs, errs), w1) ->
  _prepare_record_data row dt env w1 = (Raise msg, w2) ->
  (exists cells,
      (0 <= index)%Z /\
      nth_error (body sheet) (Z.to_nat index) = Some cells /\
      row = labelled (map renamed (header sheet)) (map fill cells)) /\
  db w2 = db w1 /\
  exists recs' errs' w3,
    process_rows m dt after [] [] env w2 = (Ok (recs', errs'), w3) /\
    process_rows m dt (iterrows df) [] [] env w =
      (Ok (recs ++ recs',
           errs ++ [("Row " ++ Text.of_Z (index + 1) ++ ": " ++ msg)%string] ++ errs'),
       w3).
Proof.
  intros Hclean Hitems Hbefore Hraise. split; [|split].
  - destruct (iterrows_label sheet df index row Hclean) as (cells & H0 & Hnth & _ & Hrow).
    { rewrite Hitems. apply in_or_app. right. left. reflexivity. }
    now exists cells.
  - destruct (prepare_session dt row env w1) as [Hdb _].
    now rewrite Hraise in Hdb.
  - destruct (process_rows_spec m dt after recs (errs ++ [row_error index msg]) env w2)
      as (recs' & errs' & w3 & H1 & H2 & _ & _).
    exists recs', errs', w3. split; [exact H2|].
    rewrite Hitems, (process_rows_app m dt before _ _ _ _ _ _ _ _ Hbefore).
    cbn [process_rows]. unfold bind at 1.
    rewrite process_row_eq, Hraise. cbn [fst snd].
    rewrite H1, <- app_assoc. reflexivity.
Qed.

End Pipeline.

(** ** The claims about the fields of a record *)

Section FieldClaims.

Context {R : PyRuntime}.

(** What a row prepared without raising went through: the builder of its
    model class, with the clock reading of that row. *)
Lemma prepared_by_builder dt m row env w d w' :
  model_mapping dt = Some m ->
  _prepare_record_data row dt env w = (Ok d, w') ->
  builder m row (now_at env (clock_reads w)) env
    {| clock_reads := S (clock_reads w); uuid_draws := uuid_draws w; db := db w |}
  = (Ok d, w').
Proof. intros Hm H. now rewrite (prepare_runs_builder dt m row env w Hm) in H. Qed.

(** C2 (amended).  A required date whose column the sheet does not have
    is given the reading of the clock that [_prepare_record_data] takes
    for that row: the defaulted dates of one row are one instant, and
    each row that is prepared takes the next reading of the clock. *)
Theorem default_date_is_row_clock dt m row env w d w' k :
  model_mapping dt = Some m ->
  _prepare_record_data row dt env w = (Ok d, w') ->
  In k (required_dates m) ->
  get row k = None ->
  attr d k = Some (VTime (now_at env (clock_reads w))) /\
  clock_reads w' = S (clock_reads w).
Proof.
  intros Hm H Hk Hget. split.
  - apply (prepared_by_builder dt m) in H; [|exact Hm].
    destruct (builder_date m k _ _ _ _ _ _ Hk H) as (t & Ht & Hattr).
    unfold get_or in Ht. rewrite Hget in Ht. cbn in Ht. injection Ht as <-.
    exact Hattr.
  - destruct (prepare_session dt row env w) as [_ Hclock].
    now rewrite H in Hclock.
Qed.

(** The identifier of a record that was built: the text of the cell when
    the row has the column, and otherwise the prefix of the class and
    eight uppercase hexadecimal digits. *)
Lemma identifier_of_row dt m row env w d w' :
  model_mapping dt = Some m ->
  _prepare_record_data row dt env w = (Ok d, w') ->
  match get row (id_field m) with
  | Some c => attr d (id_field m) = Some (VStr (py_str c))
  | None =>
      exists h, attr d (id_field m) = Some (VStr (id_prefix m ++ h)) /\
                String.length h = 8 /\
                Text.all_chars Text.is_upper_hex h = true
  end.
Proof.
  intros Hm H. apply (prepared_by_builder dt m) in H; [|exact Hm].
  destruct (builder_id m _ _ _ _ _ _ H) as (u & Hattr).
  unfold get_or in Hattr. destruct (get row (id_field m)) as [c|].
  - exact Hattr.
  - exists (Text.upper (Uuid.hex_prefix 8 u)). split; [exact Hattr|].
    apply TextFacts.hex_prefix_upper. lia.
Qed.

(** C8 (amended).  When the row has a cell in the identifier column, the
    identifier of the record built is the text of that cell, [str(cell)],
    as it stands: for a text cell, the text itself, blanks included. *)
Theorem identifier_is_cell_text dt m row env w d w' c :
  model_mapping dt = Some m ->
  _prepare_record_data row dt env w = (Ok d, w') ->
  get row (id_field m) = Some c ->
  attr d (id_field m) = Some (VStr (py_str c)) /\
  (forall s, c = CStr s -> attr d (id_field m) = Some (VStr s)).
Proof.
  intros Hm H Hget.
  pose proof (identifier_of_row dt m row env w d w' Hm H) as Hid.
  rewrite Hget in Hid. split; [exact Hid|].
  intros s ->. exact Hid.
Qed.

(** A required amount of a record that was built: the column missing, it
    is [float(0)]; otherwise [float] of the cell, which did not raise. *)
Lemma amount_of_row dt m row env w d w' k :
  model_mapping dt = Some m ->
  _prepare_record_data row dt env w = (Ok d, w') ->
  In k (required_amounts m) ->
  match get row k with
  | Some c => exists x, py_float c = Ok x /\ attr d k = Some (VFloat x)
  | None => attr d k = Some (VFloat (float_of_int 0))
  end.
Proof.
  intros Hm H Hk. apply (prepared_by_builder dt m) in H; [|exact Hm].
  destruct (builder_amount m k _ _ _ _ _ _ Hk H) as (x & Hx & Hattr).
  unfold get_or in Hx. destruct (get row k) as [c|].
  - now exists x.
  - cbn in Hx. injection Hx as <-. exact Hattr.
Qed.

(** Text that [float] does not read, in a required amount, makes the
    preparation of the row raise. *)
Lemma amount_text_raises dt m row env w k s msg :
  model_mapping dt = Some m ->
  In k (required_amounts m) ->
  get row k = Some (CStr s) ->
  float_of_str s = Raise msg ->
  exists msg' w', _prepare_record_data row dt env w = (Raise msg', w').
Proof.
  intros Hm Hk Hget Hs.
  destruct (_prepare_record_data row dt env w) as [[d|msg'] w'] eqn:H.
  - pose proof (amount_of_row dt m row env w d w' k Hm H Hk) as Ha.
    rewrite Hget in Ha. destruct Ha as (x & Hx & _). cbn in Hx. congruence.
  - now exists msg', w'.
Qed.

(** An optional amount of a record that was built: [None] when the
    column is missing or the cell is false (the empty text, a zero), and
    otherwise [float] of the cell, which did not raise. *)
Lemma optional_amount_of_row dt m row env w d w' k :
  model_mapping dt = Some m ->
  _prepare_record_data row dt env w = (Ok d, w') ->
  In k (optional_amounts m) ->
  match get row k with
  | Some c =>
      if py_bool c
      then exists x, py_float c = Ok x /\ attr d k = Some (VFloat x)
      else attr d k = Some VNone
  | None => attr d k = Some VNone
  end.
Proof.
  intros Hm H Hk. apply (prepared_by_builder dt m) in H; [|exact Hm].
  exact (builder_optional_amount m k _ _ _ _ _ _ Hk H).
Qed.

Lemma optional_amount_text_raises dt m row env w k s msg :
  model_mapping dt = Some m ->
  In k (optional_amounts m) ->
  get row k = Some (CStr s) ->
  s <> "" ->
  float_of_str s = Raise msg ->
  exists msg' w', _prepare_record_data row dt env w = (Raise msg', w').
Proof.
  intros Hm Hk Hget Hne Hs.
  destruct (_prepare_record_data row dt env w) as [[d|msg'] w'] eqn:H.
  - pose proof (optional_amount_of_row dt m row env w d w' k Hm H Hk) as Ha.
    rewrite Hget in Ha. cbn [py_bool] in Ha.
    destruct s; [congruence|]. cbn in Ha. destruct Ha as (x & Hx & _). congruence.
  - now exists msg', w'.
Qed.

(** C9 (amended).  A boolean field is the truth value of its cell: true
    for any text that is not empty, whatever it says; false when the
    column is missing and for the empty text, and also for a zero and
    for a cell that is the boolean False. *)
Theorem flag_is_truth_value dt m row env w d w' k :
  model_mapping dt = Some m ->
  _prepare_record_data row dt env w = (Ok d, w') ->
  In k (flags m) ->
  exists b,
    attr d k = Some (VBool b) /\
    (forall s, get row k = Some (CStr s) -> s <> "" -> b = true) /\
    (b = false <->
     get row k = None \/
     get row k = Some (CStr "") \/
     get row k = Some (CInt 0) \/
     get row k = Some (CBool false) \/
     exists x, get row k = Some (CFloat x) /\ float_truth x = false).
Proof.
  intros Hm H Hk. apply (prepared_by_builder dt m) in H; [|exact Hm].
  pose proof (builder_flag m k _ _ _ _ _ _ Hk H) as Hattr.
  eexists. split; [exact Hattr|]. unfold get_or.
  destruct (get row k) as [c|]; [destruct c as [s|n|x|b|t|]|]; cbn [py_bool].
  - split.
    + intros s' [= <-] Hne. destruct s; [congruence | reflexivity].
    + destruct s; cbn [Text.is_empty negb]; split; intros Hb;
        try discriminate Hb; auto.
      destruct Hb as [Hb|[Hb|[Hb|[Hb|(x & Hb & _)]]]]; discriminate Hb.
  - split; [intros s' [=]|].
    destruct (Z.eqb_spec n 0) as [->|Hn]; cbn [negb]; split; intros Hb;
      try discriminate Hb; auto.
    destruct Hb as [Hb|[Hb|[Hb|[Hb|(x & Hb & _)]]]]; try discriminate Hb.
    injection Hb as ->. contradiction.
  - split; [intros s' [=]|]. split.
    + intros Hx. do 4 right. now exists x.
    + intros [Hb|[Hb|[Hb|[Hb|(x' & Hb & Hx)]]]]; try discriminate Hb.
      now injection Hb as ->.
  - split; [intros s' [=]|]. split.
    + intros ->. auto.
    + intros [Hb|[Hb|[Hb|[Hb|(x' & Hb & Hx)]]]]; try discriminate Hb.
      now injection Hb as ->.
  - split; [intros s' [=]|]. split; [discriminate|].
    intros [Hb|[Hb|[Hb|[Hb|(x' & Hb & Hx)]]]]; discriminate Hb.
  - split; [intros s' [=]|]. split; [discriminate|].
    intros [Hb|[Hb|[Hb|[Hb|(x' & Hb & Hx)]]]]; discriminate Hb.
  - split; [intros s' [=]|]. split; auto.
Qed.

(** The email of a customer or agent that was built: the text of the
    cell when the row has the column, and otherwise "customer" or "agent",
    eight lowercase hexadecimal digits and "@example.com". *)
Lemma email_of_row dt m who row env w d w' :
  (m = Customer /\ who = "customer") \/ (m = Agent /\ who = "agent") ->
  model_mapping dt = Some m ->
  _prepare_record_data row dt env w = (Ok d, w') ->
  match get row "email" with
  | Some c => attr d "email" = Some (VStr (py_str c))
  | None =>
      exists h, attr d "email" = Some (VStr (who ++ h ++ "@example.com")) /\
                String.length h = 8 /\
                Text.all_chars Text.is_lower_hex h = true
  end.
Proof.
  intros Hwho Hm H. apply (prepared_by_builder dt m) in H; [|exact Hm].
  destruct (builder_email m who _ _ _ _ _ _ Hwho H) as (u & Hattr).
  unfold get_or in Hattr. destruct (get row "email") as [c|].
  - exact Hattr.
  - exists (Uuid.hex_prefix 8 u). split; [exact Hattr|].
    apply TextFacts.hex_prefix_lower. lia.
Qed.

End FieldClaims.

(** ** The service on the sample sheets *)

Module Examples.
Import Sample.

(** A run that returned [a] is the pair of [a] and the state it left. *)
Lemma run_eq {A} (run : Result A * World) (a : A) :
  fst run = Ok a -> run = (Ok a, snd run).
Proof. destruct run as [r w]. cbn. intros ->. reflexivity. Qed.

Lemma raised_eq {A} (run : Result A * World) (msg : string) :
  fst run = Raise msg -> run = (Raise msg, snd run).
Proof. destruct run as [r w]. cbn. intros ->. reflexivity. Qed.

(** C1, as stated, does not hold: when the batch commit raises, the
    session is asked to add the two payments, to commit and to roll back,
    and never to add an audit entry; nothing is stored. *)
Lemma no_audit_entry_when_commit_raises :
  fst (import_locked "payments" payments_sheet) = Raise "database is locked" /\
  map call_name (calls (db (snd (import_locked "payments" payments_sheet))))
    = ["add Payment"; "add Payment"; "commit raises"; "rollback"] /\
  stored (db (snd (import_locked "payments" payments_sheet))) = [].
Proof. repeat split; reflexivity. Qed.

Lemma audit_entry_unless_commit_fails_witness :
  workbook (on_disk payments_sheet) "import.xlsx" = Ok payments_sheet /\
  _clean_dataframe (frame_of payments_sheet) = Ok (cleaned payments_sheet) /\
  model_mapping "payments" = Some Payment /\
  payments_loop
    = (Ok (staged payments_loop, failed payments_loop), snd payments_loop) /\
  exists r w',
    import "payments" payments_sheet = (Ok r, w') /\
    map call_name (calls (db w'))
      = ["add Payment"; "add Payment"; "commit"; "add AuditLog"; "commit"] /\
    map obj_class (stored (db w')) = [Payment; Payment; AuditLog].
Proof.
  assert (H1 : workbook (on_disk payments_sheet) "import.xlsx" = Ok payments_sheet)
    by reflexivity.
  assert (H0 : _clean_dataframe (frame_of payments_sheet) = Ok (cleaned payments_sheet))
    by reflexivity.
  assert (H2 : model_mapping "payments" = Some Payment) by reflexivity.
  assert (H3 : payments_loop
               = (Ok (staged payments_loop, failed payments_loop),
                  snd payments_loop))
    by (apply run_eq; reflexivity).
  repeat (split; [assumption|]).
  pose proof (audit_entry_unless_commit_fails _ _ _ _ _ _ _ _ _ _ H1 H0 H2 H3) as H.
  cbv zeta in H.
  assert (Hb : batch_commit_error (on_disk payments_sheet) (db (snd payments_loop))
                 (staged payments_loop) = None) by reflexivity.
  rewrite Hb in H.
  destruct H as (r & w' & Hrun & Hcalls & Hstored).
  exists r, w'. split; [exact Hrun|]. split.
  - rewrite Hcalls. reflexivity.
  - destruct (Hstored eq_refl) as [Hs _]. rewrite Hs. reflexivity.
Defined.

(** C2, as stated, does not hold: the sheet has no payment_date column,
    and the two payments imported from it carry the instants 1000 and
    1010, the readings of the clock taken for their two rows. *)
Lemma rows_default_to_different_instants :
  _clean_dataframe (frame_of payments_sheet)
    = Ok {| columns := [Some "payment_id"; Some "amount"];
            rows := rows (cleaned payments_sheet) |} /\
  map (attr_of "payment_date") (stored_of Payment (import "payments" payments_sheet))
    = [Some (VTime 1000%Z); Some (VTime 1010%Z)].
Proof. split; reflexivity. Qed.

Lemma default_date_is_row_clock_witness :
  model_mapping "payments" = Some Payment /\
  prepared payments_sheet
    = (Ok (returned [] (prepared payments_sheet)), snd (prepared payments_sheet)) /\
  In "payment_date" (required_dates Payment) /\
  get (row_at 0 payments_sheet) "payment_date" = None /\
  attr (returned [] (prepared payments_sheet)) "payment_date"
    = Some (VTime (now_at (on_disk payments_sheet) (clock_reads world0))) /\
  clock_reads (snd (prepared payments_sheet)) = S (clock_reads world0).
Proof.
  assert (H1 : model_mapping "payments" = Some Payment) by reflexivity.
  assert (H2 : prepared payments_sheet
               = (Ok (returned [] (prepared payments_sheet)),
                  snd (prepared payments_sheet))) by (apply run_eq; reflexivity).
  assert (H3 : In "payment_date" (required_dates Payment)) by (left; reflexivity).
  assert (H4 : get (row_at 0 payments_sheet) "payment_date" = None) by reflexivity.
  repeat (split; [assumption|]).
  exact (default_date_is_row_clock _ _ _ _ _ _ _ _ H1 H2 H3 H4).
Defined.

(** C3 at a row whose identifier cell is empty: the payment is imported
    and its payment_id is the empty text. *)
Theorem blank_identifier_is_kept :
  get (row_at 0 blank_id_sheet) "payment_id" = Some (CStr "") /\
  fst (import "payments" blank_id_sheet)
    = Ok {| records_imported := 1; errors := []; status := "completed" |} /\
  map (attr_of "payment_id") (stored_of Payment (import "payments" blank_id_sheet))
    = [Some (VStr "")].
Proof. repeat split; reflexivity. Qed.

Lemma imported_plus_errors_witness :
  import "payments" payments_sheet
    = (Ok payments_result, snd (import "payments" payments_sheet)) /\
  exists sheet df,
    workbook (on_disk payments_sheet) "import.xlsx" = Ok sheet /\
    _clean_dataframe (frame_of sheet) = Ok df /\
    records_imported payments_result + List.length (errors payments_result) =
      List.length (rows df) /\
    List.length (rows df) =
      List.length (filter (fun cells => negb (all_nan cells)) (body sheet)).
Proof.
  assert (H : import "payments" payments_sheet
              = (Ok payments_result, snd (import "payments" payments_sheet)))
    by (apply run_eq; reflexivity).
  split; [exact H|].
  exact (imported_plus_errors _ _ _ _ _ _ H).
Defined.

Lemma status_by_errors_witness :
  workbook (on_disk payments_sheet) "import.xlsx" = Ok payments_sheet /\
  _clean_dataframe (frame_of payments_sheet) = Ok (cleaned payments_sheet) /\
  model_mapping "payments" = Some Payment /\
  payments_loop
    = (Ok (staged payments_loop, failed payments_loop), snd payments_loop) /\
  batch_commit_error (on_disk payments_sheet) (db (snd payments_loop))
    (staged payments_loop) = None /\
  exists r w',
    import "payments" payments_sheet = (Ok r, w') /\
    records_imported r = 2 /\
    errors r = ["Row 3: could not convert string to float: 'abc'"] /\
    status r = "completed_with_errors".
Proof.
  assert (H1 : workbook (on_disk payments_sheet) "import.xlsx" = Ok payments_sheet)
    by reflexivity.
  assert (H0 : _clean_dataframe (frame_of payments_sheet) = Ok (cleaned payments_sheet))
    by reflexivity.
  assert (H2 : model_mapping "payments" = Some Payment) by reflexivity.
  assert (H3 : payments_loop
               = (Ok (staged payments_loop, failed payments_loop),
                  snd payments_loop))
    by (apply run_eq; reflexivity).
  assert (H4 : batch_commit_error (on_disk payments_sheet) (db (snd payments_loop))
                 (staged payments_loop) = None) by reflexivity.
  repeat (split; [assumption|]).
  destruct (status_by_errors _ _ _ _ _ _ _ _ _ _ H1 H0 H2 H3 H4)
    as (r & w' & Hrun & Hn & He & _ & Hs & _).
  exists r, w'. split; [exact Hrun|]. split; [|split].
  - rewrite Hn. reflexivity.
  - rewrite He. reflexivity.
  - apply Hs. rewrite He. discriminate.
Defined.

Lemma failed_row_is_isolated_witness :
  _clean_dataframe (frame_of payments_sheet) = Ok (cleaned payments_sheet) /\
  items payments_sheet
    = firstn 1 (items payments_sheet)
      ++ (2%Z, row_at 1 payments_sheet) :: skipn 2 (items payments_sheet) /\
  payments_loop_1
    = (Ok (staged payments_loop_1, failed payments_loop_1), snd payments_loop_1) /\
  _prepare_record_data (row_at 1 payments_sheet) "payments"
    (on_disk payments_sheet) (snd payments_loop_1)
    = (Raise "could not convert string to float: 'abc'",
       snd (_prepare_record_data (row_at 1 payments_sheet) "payments"
              (on_disk payments_sheet) (snd payments_loop_1))) /\
  exists recs' errs' w3,
    process_rows Payment "payments" (skipn 2 (items payments_sheet)) [] []
      (on_disk payments_sheet)
      (snd (_prepare_record_data (row_at 1 payments_sheet) "payments"
              (on_disk payments_sheet) (snd payments_loop_1)))
    = (Ok (recs', errs'), w3) /\
    payments_loop
    = (Ok (staged payments_loop_1 ++ recs',
           failed payments_loop_1
           ++ ["Row 3: could not convert string to float: 'abc'"] ++ errs'),
       w3).
Proof.
  assert (H0 : _clean_dataframe (frame_of payments_sheet) = Ok (cleaned payments_sheet))
    by reflexivity.
  assert (H1 : items payments_sheet
               = firstn 1 (items payments_sheet)
                 ++ (2%Z, row_at 1 payments_sheet) :: skipn 2 (items payments_sheet))
    by reflexivity.
  assert (H2 : payments_loop_1
               = (Ok (staged payments_loop_1, failed payments_loop_1),
                  snd payments_loop_1))
    by (apply run_eq; reflexivity).
  assert (H3 : _prepare_record_data (row_at 1 payments_sheet) "payments"
                 (on_disk payments_sheet) (snd payments_loop_1)
               = (Raise "could not convert string to float: 'abc'",
                  snd (_prepare_record_data (row_at 1 payments_sheet) "payments"
                         (on_disk payments_sheet) (snd payments_loop_1))))
    by (apply raised_eq; reflexivity).
  repeat (split; [assumption|]).
  exact (proj2 (proj2 (failed_row_is_isolated _ _ _ _ _ _ _ _ _ _ _ _ _ _ _ H0 H1 H2 H3))).
Defined.

(** C7 at a row whose amount cell is empty: the row is not imported; it
    is reported as an error, [float('')] having raised. *)
Theorem blank_amount_is_a_row_error :
  get (row_at 0 blank_amount_sheet) "amount" = Some (CStr "") /\
  fst (import "payments" blank_amount_sheet)
    = Ok {| records_imported := 0;
            errors := ["Row 1: could not convert string to float: ''"];
            status := "completed_with_errors" |} /\
  stored_of Payment (import "payments" blank_amount_sheet) = [].
Proof. repeat split; reflexivity. Qed.

(** C8, as stated, does not hold: the identifier cell " P1 " trims to
    "P1", and the payment imported has " P1 " for its payment_id. *)
Lemma identifier_keeps_its_blanks :
  get (row_at 0 payments_sheet) "payment_id" = Some (CStr " P1 ") /\
  Text.strip " P1 " = "P1" /\
  map (attr_of "payment_id") (stored_of Payment (import "payments" payments_sheet))
    = [Some (VStr " P1 "); Some (VStr "P4")].
Proof. repeat split; reflexivity. Qed.

Lemma identifier_is_cell_text_witness :
  model_mapping "payments" = Some Payment /\
  prepared payments_sheet
    = (Ok (returned [] (prepared payments_sheet)), snd (prepared payments_sheet)) /\
  get (row_at 0 payments_sheet) (id_field Payment) = Some (CStr " P1 ") /\
  attr (returned [] (prepared payments_sheet)) (id_field Payment)
    = Some (VStr (py_str (CStr " P1 "))) /\
  (forall s, CStr " P1 " = CStr s ->
             attr (returned [] (prepared payments_sheet)) (id_field Payment)
             = Some (VStr s)).
Proof.
  assert (H1 : model_mapping "payments" = Some Payment) by reflexivity.
  assert (H2 : prepared payments_sheet
               = (Ok (returned [] (prepared payments_sheet)),
                  snd (prepared payments_sheet))) by (apply run_eq; reflexivity).
  assert (H3 : get (row_at 0 payments_sheet) (id_field Payment) = Some (CStr " P1 "))
    by reflexivity.
  repeat (split; [assumption|]).
  exact (identifier_is_cell_text _ _ _ _ _ _ _ _ H1 H2 H3).
Defined.

(** C9, as stated, does not hold: the flags of the row are a cell that
    is the boolean False and a cell that is the number 0, neither missing
    nor an empty text, and both fields of the payment are false. *)
Lemma false_and_zero_cells_are_false :
  get (row_at 0 flags_sheet) "is_recurring" = Some (CBool false) /\
  get (row_at 0 flags_sheet) "is_late_payment" = Some (CInt 0) /\
  map (attr_of "is_recurring") (stored_of Payment (import "payments" flags_sheet))
    = [Some (VBool false)] /\
  map (attr_of "is_late_payment") (stored_of Payment (import "payments" flags_sheet))
    = [Some (VBool false)].
Proof. repeat split; reflexivity. Qed.

Lemma flag_is_truth_value_witness :
  model_mapping "payments" = Some Payment /\
  prepared flags_sheet
    = (Ok (returned [] (prepared flags_sheet)), snd (prepared flags_sheet)) /\
  In "is_recurring" (flags Payment) /\
  attr (returned [] (prepared flags_sheet)) "is_recurring" = Some (VBool false).
Proof.
  assert (H1 : model_mapping "payments" = Some Payment) by reflexivity.
  assert (H2 : prepared flags_sheet
               = (Ok (returned [] (prepared flags_sheet)), snd (prepared flags_sheet)))
    by (apply run_eq; reflexivity).
  assert (H3 : In "is_recurring" (flags Payment)) by (left; reflexivity).
  repeat (split; [assumption|]).
  destruct (flag_is_truth_value _ _ _ _ _ _ _ _ H1 H2 H3) as (b & Hattr & _ & Hfalse).
  rewrite Hattr. do 2 f_equal. apply Hfalse. do 3 right. left. reflexivity.
Defined.

(** C10 at a customers row whose email cell is empty: the customer is
    imported and its email is the empty text. *)
Theorem blank_email_is_kept :
  get (row_at 0 customers_sheet) "email" = Some (CStr "") /\
  fst (import "customers" customers_sheet)
    = Ok {| records_imported := 1; errors := []; status := "completed" |} /\
  map (attr_of "email") (stored_of Customer (import "customers" customers_sheet))
    = [Some (VStr "")].
Proof. repeat split; reflexivity. Qed.

End Examples.

(** * More properties of the import *)

Section MorePipeline.

Context {R : PyRuntime}.

(** X1.  A file that [pd.read_excel] cannot read makes [process_file]
    raise the reader's error: no status is returned, the session is only
    rolled back, and neither the clock nor a UUID is read, so no record
    and no audit entry is made. *)
Theorem unreadable_file_raises env w path dt msg :
  workbook env path = Raise msg ->
  exists w',
    process_file path dt env w = (Raise msg, w') /\
    calls (db w') = calls (db w) ++ [Rollback] /\
    stored (db w') = stored (db w) /\
    pending (db w') = [] /\
    clock_reads w' = clock_reads w /\
    uuid_draws w' = uuid_draws w.
Proof.
  intros Hfile. eexists. split.
  - unfold process_file, try_except, bind at 1, read_excel. rewrite Hfile.
    reflexivity.
  - repeat split.
Qed.

(** X2.  A data type outside the seven makes [process_file] raise
    "Unsupported data type: ..." once the file is read and its frame
    cleaned, which takes a header that is text: no row is prepared, the
    session is only rolled back, and no audit entry is made. *)
Theorem unsupported_type_raises env w path dt sheet :
  workbook env path = Ok sheet ->
  existsb is_text (header sheet) = true ->
  model_mapping dt = None ->
  exists w',
    process_file path dt env w = (Raise ("Unsupported data type: " ++ dt), w') /\
    calls (db w') = calls (db w) ++ [Rollback] /\
    stored (db w') = stored (db w) /\
    pending (db w') = [] /\
    clock_reads w' = clock_reads w /\
    uuid_draws w' = uuid_draws w.
Proof.
  intros Hfile Htext Hm.
  destruct (clean_text_header sheet Htext) as [df Hclean].
  eexists. split.
  - unfold process_file, try_except, bind at 1, read_excel. rewrite Hfile.
    unfold bind at 1, lift at 1. rewrite Hclean.
    unfold bind at 1. rewrite Hm. reflexivity.
  - repeat split.
Qed.

(** X23.  The frame is cleaned before the data type is looked at: when
    the renaming of the headers raises, [process_file] raises that error
    whatever the data type, even one outside the seven; no row is
    prepared, the session is only rolled back, and no audit entry is
    made. *)
Theorem unclean_header_raises env w path dt sheet msg :
  workbook env path = Ok sheet ->
  _clean_dataframe (frame_of sheet) = Raise msg ->
  exists w',
    process_file path dt env w = (Raise msg, w') /\
    calls (db w') = calls (db w) ++ [Rollback] /\
    stored (db w') = stored (db w) /\
    pending (db w') = [] /\
    clock_reads w' = clock_reads w /\
    uuid_draws w' = uuid_draws w.
Proof.
  intros Hfile Hclean. eexists. split.
  - unfold process_file, try_except, bind at 1, read_excel. rewrite Hfile.
    unfold bind at 1, lift at 1. rewrite Hclean. reflexivity.
  - repeat split.
Qed.

(** X3.  [model_mapping] and the chain of tests in [_prepare_record_data]
    name the same data types: a type that has a model class is prepared
    by the builder of that class, with the clock read once, and a type
    that has none makes the preparation raise "Unsupported data type". *)
Theorem dispatch_agrees_with_model_mapping dt row env w :
  match model_mapping dt with
  | Some m =>
      _prepare_record_data row dt env w =
      builder m row (now_at env (clock_reads w)) env
        {| clock_reads := S (clock_reads w); uuid_draws := uuid_draws w; db := db w |}
  | None =>
      _prepare_record_data row dt env w =
      (Raise ("Unsupported data type: " ++ dt),
       {| clock_reads := S (clock_reads w); uuid_draws := uuid_draws w; db := db w |})
  end.
Proof.
  destruct (model_mapping dt) as [m|] eqn:Hm.
  - exact (prepare_runs_builder dt m row env w Hm).
  - unfold model_mapping in Hm. unfold _prepare_record_data, bind, now.
    repeat match type of Hm with
           | (if String.eqb ?a ?b then _ else _) = _ =>
               destruct (String.eqb a b); [discriminate Hm|]
           end.
    reflexivity.
Qed.

(** The labels of the rows the loop sees grow strictly, and each is a
    position in the sheet. *)
Lemma labels_sorted {A} (keep : Z * A -> bool) (l : list A) :
  forall i,
    StronglySorted Z.lt (map fst (filter keep (enumerate_from i l))) /\
    Forall (fun x => (i <= x < i + Z.of_nat (List.length l))%Z)
           (map fst (filter keep (enumerate_from i l))).
Proof.
  induction l as [|a l IH]; intros i; cbn [enumerate_from filter map List.length].
  - split; constructor.
  - destruct (IH (i + 1)%Z) as [Hs Hf].
    assert (Hf' : Forall (fun x => (i < x < i + Z.of_nat (S (List.length l)))%Z)
                    (map fst (filter keep (enumerate_from (i + 1) l)))).
    { eapply Forall_impl; [|exact Hf]. cbn beta. intros x Hx. lia. }
    destruct (keep (i, a)); cbn [map fst].
    + split.
      * constructor; [exact Hs|]. eapply Forall_impl; [|exact Hf']. cbn beta. lia.
      * constructor; [lia|]. eapply Forall_impl; [|exact Hf']. cbn beta. lia.
    + split; [exact Hs|]. eapply Forall_impl; [|exact Hf']. cbn beta. lia.
Qed.

Lemma iterrows_labels_sorted (sheet : Sheet) df :
  _clean_dataframe (frame_of sheet) = Ok df ->
  StronglySorted Z.lt (map fst (iterrows df)) /\
  Forall (fun x => (0 <= x < Z.of_nat (List.length (body sheet)))%Z)
         (map fst (iterrows df)).
Proof.
  intros Hclean. apply clean_inv in Hclean as [_ ->].
  unfold iterrows.
  cbn [rows columns]. rewrite !map_map. cbn [fst].
  exact (labels_sorted (fun r => negb (all_nan (snd r))) (body sheet) 0%Z).
Qed.

(** The errors the loop adds are those of some of its rows, in order. *)
Lemma process_rows_errors (m : Model) (dt : string) (items : list (Z * Series)) :
  forall p e env w,
  exists p' failures w',
    process_rows m dt items p e env w =
      (Ok (p', e ++ map (fun f => row_error (fst f) (snd f)) failures), w') /\
    Forall (fun x => In x (map fst items)) (map fst failures) /\
    (StronglySorted Z.lt (map fst items) ->
     StronglySorted Z.lt (map fst failures)).
Proof.
  induction items as [|[index row] rest IH]; intros p e env w.
  - exists p, [], w. cbn. rewrite app_nil_r. repeat split; constructor.
  - cbn [process_rows]. unfold bind at 1. rewrite process_row_eq.
    assert (Hup : forall fs : list (Z * string),
               Forall (fun x => In x (map fst rest)) (map fst fs) ->
               Forall (fun x => In x (map fst ((index, row) :: rest))) (map fst fs)).
    { intros fs H. eapply Forall_impl; [|exact H]. cbn. auto. }
    destruct (_prepare_record_data row dt env w) as [[d|msg] w0];
      [destruct (construct m d) as [record|msg]|]; cbn [fst snd].
    + destruct (IH (p ++ [record]) e env (with_db w0 (added (db w0) record)))
        as (p' & fs & w' & H1 & H2 & H3).
      exists p', fs, w'. split; [exact H1|]. split; [exact (Hup fs H2)|].
      intros Hs. apply H3. now inversion Hs.
    + destruct (IH p (e ++ [row_error index msg]) env w0)
        as (p' & fs & w' & H1 & H2 & H3).
      exists p', ((index, msg) :: fs), w'. cbn [map fst snd].
      split; [rewrite H1, <- app_assoc; reflexivity|].
      split; [constructor; [now left | exact (Hup fs H2)]|].
      intros Hs. inversion Hs as [|? ? Hrest Hall]; subst.
      constructor; [exact (H3 Hrest)|].
      rewrite Forall_forall in *. intros x Hx. apply Hall, H2, Hx.
    + destruct (IH p (e ++ [row_error index msg]) env w0)
        as (p' & fs & w' & H1 & H2 & H3).
      exists p', ((index, msg) :: fs), w'. cbn [map fst snd].
      split; [rewrite H1, <- app_assoc; reflexivity|].
      split; [constructor; [now left | exact (Hup fs H2)]|].
      intros Hs. inversion Hs as [|? ? Hrest Hall]; subst.
      constructor; [exact (H3 Hrest)|].
      rewrite Forall_forall in *. intros x Hx. apply Hall, H2, Hx.
Qed.

(** X4.  The errors [process_file] returns are in sheet order: they are
    "Row n: message" for rows of the sheet taken at strictly growing
    positions, so no row is reported twice and [n] is never more than the
    number of data rows. *)
Theorem errors_in_sheet_order env w path dt r w' :
  process_file path dt env w = (Ok r, w') ->
  exists sheet failures,
    workbook env path = Ok sheet /\
    errors r = map (fun f => row_error (fst f) (snd f)) failures /\
    StronglySorted Z.lt (map fst failures) /\
    Forall (fun x => (0 <= x < Z.of_nat (List.length (body sheet)))%Z)
           (map fst failures).
Proof.
  intros H.
  destruct (process_file_returns env w path dt r w' H)
    as (sheet & df & m & Hfile & Hclean & Hm).
  destruct (process_rows_errors m dt (iterrows df)
              [] [] env w) as (recs & fs & w1 & Hrows & Hin & Hsorted).
  cbn [app] in Hrows.
  rewrite (process_file_eq env w path dt sheet df m _ _ w1 Hfile Hclean Hm Hrows) in H.
  destruct (batch_commit_error env (db w1) recs); [discriminate H|].
  injection H as <- _. cbn [errors].
  destruct (iterrows_labels_sorted sheet df Hclean) as [Hs Hr].
  exists sheet, fs. repeat split; try assumption; try reflexivity.
  - exact (Hsorted Hs).
  - rewrite Forall_forall in *. intros x Hx. apply Hr, Hin, Hx.
Qed.

End MorePipeline.

Section MoreAudit.

Context {R : PyRuntime}.

(** X5.  [_log_import_audit] never raises.  It asks the session for one
    addition, of an [AuditLog] whose action is "FILE_IMPORT", whose
    resource type is the data type, whose identifier is "IMPORT-" and
    eight uppercase hexadecimal digits, whose severity and status are
    "info" and "success" when no row failed and "warning" otherwise, and
    then for one commit, whose failure it keeps to itself. *)
Theorem audit_entry_written (dt : string) (imported failures : nat) env w :
  exists a w' h,
    _log_import_audit dt imported failures env w = (Ok tt, w') /\
    calls (db w') =
      calls (db w) ++ [Add a; Commit (commit_passes env (added (db w) a))] /\
    obj_class a = AuditLog /\
    attr (obj_attrs a) "action" = Some (VStr "FILE_IMPORT") /\
    attr (obj_attrs a) "resource_type" = Some (VStr dt) /\
    attr (obj_attrs a) "event_timestamp" = Some (VTime (now_at env (clock_reads w))) /\
    attr (obj_attrs a) "log_id" = Some (VStr ("IMPORT-" ++ h)) /\
    String.length h = 8 /\
    Text.all_chars Text.is_upper_hex h = true /\
    (failures = 0 ->
     attr (obj_attrs a) "severity" = Some (VStr "info") /\
     attr (obj_attrs a) "status" = Some (VStr "success")) /\
    (failures <> 0 ->
     attr (obj_attrs a) "severity" = Some (VStr "warning") /\
     attr (obj_attrs a) "status" = Some (VStr "warning")).
Proof.
  exists (audit_object dt imported failures env w),
         (after_audit dt imported failures env w (db w)),
         (Text.upper (Uuid.hex_prefix 8 (uuid4_at env (uuid_draws w)))).
  split; [apply log_import_audit_eq|].
  destruct (TextFacts.hex_prefix_upper 8 (uuid4_at env (uuid_draws w))) as [Hl Hc];
    [lia|].
  split.
  - unfold after_audit, commit_tried, commit_passes. cbn [db].
    destruct (commit_error env _); cbn [committed commit_failed calls added];
      rewrite <- app_assoc; reflexivity.
  - repeat split; try assumption; try reflexivity;
      destruct failures; first [congruence | reflexivity].
Qed.

(** X6.  When the commit of the audit entry fails, [process_file] still
    returns the result of the import: the staged records stay stored,
    the audit entry is lost (the store is what the batch commit left,
    and the session holds nothing pending), and the session is not asked
    to roll back: the failed commit is the last call made on it. *)
Theorem audit_failure_is_swallowed env w path dt sheet df m recs errs w1 msg :
  workbook env path = Ok sheet ->
  _clean_dataframe (frame_of sheet) = Ok df ->
  model_mapping dt = Some m ->
  process_rows m dt (iterrows df) [] [] env w = (Ok (recs, errs), w1) ->
  batch_commit_error env (db w1) recs = None ->
  commit_error env
    (added (after_batch (db w1) recs)
       (audit_object dt (List.length recs) (List.length errs) env w1)) = Some msg ->
  exists r w',
    process_file path dt env w = (Ok r, w') /\
    records_imported r = List.length recs /\
    errors r = errs /\
    stored (db w') = stored (after_batch (db w1) recs) /\
    pending (db w') = [] /\
    calls (db w') =
      calls (db w) ++ map Add recs
        ++ match recs with [] => [] | _ :: _ => [Commit true] end
        ++ [Add (audit_object dt (List.length recs) (List.length errs) env w1);
            Commit false] /\
    (recs <> [] -> stored (db w') = stored (db w) ++ pending (db w) ++ recs).
Proof.
  intros Hfile Hclean Hm Hrows Hbatch Haudit.
  rewrite (process_file_eq env w path dt sheet df m recs errs w1 Hfile Hclean Hm Hrows), Hbatch.
  eexists _, _. split; [reflexivity|].
  unfold after_audit, commit_tried. cbn [db records_imported errors].
  rewrite Haudit. cbn [commit_failed added stored pending calls].
  destruct (process_rows_spec m dt (iterrows df) [] [] env w)
    as (p' & e' & w' & H1 & _ & _ & Hdb).
  cbn [app] in H1. rewrite Hrows in H1. injection H1 as <- <- <-.
  destruct (fold_added recs (db w)) as (Hp & Hs & Hc).
  rewrite <- Hdb in Hp, Hs, Hc.
  repeat split.
  - destruct recs; cbn [after_batch committed calls];
      rewrite Hc, <- ?app_assoc; reflexivity.
  - intros Hne. destruct recs as [|r0 recs']; [congruence|].
    cbn [after_batch committed stored].
    now rewrite Hs, Hp, app_assoc.
Qed.

(** X7.  An import that returns has read the clock once for each row
    of the cleaned frame and once more for the audit entry, and the audit
    entry carries that last reading: it is stamped after every row. *)
Theorem audit_entry_is_stamped_last env w path dt sheet df m recs errs w1 :
  workbook env path = Ok sheet ->
  _clean_dataframe (frame_of sheet) = Ok df ->
  model_mapping dt = Some m ->
  process_rows m dt (iterrows df) [] [] env w = (Ok (recs, errs), w1) ->
  batch_commit_error env (db w1) recs = None ->
  exists r w',
    process_file path dt env w = (Ok r, w') /\
    clock_reads w' = clock_reads w + List.length (rows df) + 1 /\
    attr (obj_attrs (audit_object dt (List.length recs) (List.length errs) env w1))
         "event_timestamp"
    = Some (VTime (now_at env (clock_reads w + List.length (rows df)))).
Proof.
  intros Hfile Hclean Hm Hrows Hbatch.
  rewrite (process_file_eq env w path dt sheet df m recs errs w1 Hfile Hclean Hm Hrows), Hbatch.
  pose proof (process_rows_clock m dt (iterrows df) [] [] env w) as Hclock.
  rewrite Hrows, iterrows_count in Hclock. cbn [snd] in Hclock.
  eexists _, _. split; [reflexivity|]. split.
  - unfold after_audit. cbn [clock_reads]. lia.
  - cbn. now rewrite Hclock.
Qed.

(** X8.  A row that was prepared is always accepted by its model class:
    every key a builder writes is a column of the class.  So one turn of
    the loop stages exactly the prepared dict under that class, or
    reports the message the preparation raised. *)
Theorem prepared_row_is_staged dt m index row p e env w :
  model_mapping dt = Some m ->
  process_row m dt index row p e env w =
  match _prepare_record_data row dt env w with
  | (Ok d, w1) =>
      (Ok (p ++ [{| obj_class := m; obj_attrs := d |}], e),
       with_db w1 (added (db w1) {| obj_class := m; obj_attrs := d |}))
  | (Raise msg, w1) => (Ok (p, e ++ [row_error index msg]), w1)
  end.
Proof.
  intros Hm. rewrite process_row_eq.
  destruct (_prepare_record_data row dt env w) as [[d|msg] w1] eqn:H; [|reflexivity].
  rewrite (prepare_runs_builder dt m row env w Hm) in H.
  now rewrite (builder_constructs m _ _ _ _ _ _ H).
Qed.

Lemma blank_rows_are_dropped (l : list (list (option Cell))) :
  forallb all_nan l = true ->
  forall i, filter (fun r => negb (all_nan (snd r))) (enumerate_from i l) = [].
Proof.
  induction l as [|cells l IH]; intros H i; [reflexivity|].
  cbn [forallb] in H. apply andb_true_iff in H as [Hc Hl].
  cbn [enumerate_from filter snd]. rewrite Hc. cbn [negb]. now apply IH.
Qed.

(** X22.  A sheet that has a header that is text and no data row, or
    none that has an entry, is a completed import of zero records: no
    row is prepared, no batch commit is made, and the audit entry is
    still written, with severity "info". *)
Theorem empty_sheet_is_completed env w path dt sheet m :
  workbook env path = Ok sheet ->
  existsb is_text (header sheet) = true ->
  model_mapping dt = Some m ->
  forallb all_nan (body sheet) = true ->
  exists w',
    process_file path dt env w
      = (Ok {| records_imported := 0; errors := []; status := "completed" |}, w') /\
    calls (db w') =
      calls (db w)
      ++ [Add (audit_object dt 0 0 env w);
          Commit (commit_passes env (added (db w) (audit_object dt 0 0 env w)))] /\
    attr (obj_attrs (audit_object dt 0 0 env w)) "severity" = Some (VStr "info") /\
    clock_reads w' = S (clock_reads w).
Proof.
  intros Hfile Htext Hm Hblank.
  destruct (clean_text_header sheet Htext) as [df Hclean].
  assert (Hrows : process_rows m dt (iterrows df) [] [] env w = (Ok ([], []), w)).
  { destruct (clean_inv sheet df Hclean) as [_ ->].
    unfold iterrows. cbn [rows columns].
    rewrite (blank_rows_are_dropped (body sheet) Hblank 0%Z). reflexivity. }
  rewrite (process_file_eq env w path dt sheet df m [] [] w Hfile Hclean Hm Hrows).
  cbn [batch_commit_error after_batch List.length].
  eexists. split; [reflexivity|].
  unfold after_audit, commit_tried, commit_passes. cbn [db clock_reads].
  split; [|split; reflexivity].
  destruct (commit_error env _); cbn [committed commit_failed calls added];
    rewrite <- app_assoc; reflexivity.
Qed.

End MoreAudit.

(** * More properties of the builders *)

Section MoreFields.

Context {R : PyRuntime}.

Ltac compare_keys H :=
  match type of H with
  | context [String.eqb ?a ?b] =>
      let v := eval vm_compute in (String.eqb a b) in
      change (String.eqb a b) with v in H; cbn iota in H
  end.

(** [written_for H name]: from [H : builder ... = (Ok d, w')] to the
    field expression written for [name] and the value it gave. *)
Ltac written_for H name :=
  unfold builder, _prepare_payment_data, _prepare_receipt_data,
    _prepare_policy_data, _prepare_claim_data, _prepare_customer_data,
    _prepare_agent_data, _prepare_audit_log_data in H;
  cbv zeta in H;
  apply attr_dict with (k := name) in H;
  repeat (cbn [find fst] in H; compare_keys H);
  cbn [snd] in H.

Lemma builder_optional_text (m : Model) (k : string) row ct env w d w' :
  In k (optional_texts m) ->
  builder m row ct env w = (Ok d, w') ->
  attr d k =
  Some (if truthy (get row k)
        then VStr (py_str (get_or row k (CStr "")))
        else VNone).
Proof.
  intros Hk H.
  destruct m; cbn [optional_texts In] in Hk;
    repeat (destruct Hk as [<-|Hk]); try contradiction;
    match goal with |- context [attr d ?key] => written_for H key end;
    destruct H as (v & w0 & w1 & Hv & ->);
    unfold opt_text in Hv; destruct (truthy (get row _));
    unfold ret in Hv; congruence.
Qed.

Lemma builder_names (m : Model) row ct env w d w' :
  m = Customer \/ m = Agent ->
  builder m row ct env w = (Ok d, w') ->
  let first_name := py_str (get_or row "first_name" (CStr "Unknown")) in
  let last_name := py_str (get_or row "last_name" (CStr (default_last_name m))) in
  attr d "first_name" = Some (VStr first_name) /\
  attr d "last_name" = Some (VStr last_name) /\
  attr d "full_name" =
    Some (VStr (py_str (get_or row "full_name" (CStr (first_name ++ " " ++ last_name))))).
Proof.
  intros [->| ->] H; cbv zeta; cbn [default_last_name];
    (split; [|split]);
    match goal with |- attr d ?key = _ => written_for H key end;
    destruct H as (v & w0 & w1 & Hv & ->);
    unfold ret in Hv; congruence.
Qed.

(** X9.  When the sheet has no column for the business identifier, the
    record built has the prefix of its class (PAY-, RCP-, POL-, CLM-,
    CUST-, AGT-, LOG-) followed by eight uppercase hexadecimal digits. *)
Theorem missing_identifier_is_synthesized dt m row env w d w' :
  model_mapping dt = Some m ->
  _prepare_record_data row dt env w = (Ok d, w') ->
  get row (id_field m) = None ->
  exists h,
    attr d (id_field m) = Some (VStr (id_prefix m ++ h)) /\
    String.length h = 8 /\
    Text.all_chars Text.is_upper_hex h = true.
Proof.
  intros Hm H Hget.
  pose proof (identifier_of_row dt m row env w d w' Hm H) as Hid.
  now rewrite Hget in Hid.
Qed.

(** X10.  When a customers or agents sheet has no email column, the
    record built has the email "customer" or "agent", eight lowercase
    hexadecimal digits and "@example.com". *)
Theorem missing_email_is_synthesized dt m who row env w d w' :
  (m = Customer /\ who = "customer") \/ (m = Agent /\ who = "agent") ->
  model_mapping dt = Some m ->
  _prepare_record_data row dt env w = (Ok d, w') ->
  get row "email" = None ->
  exists h,
    attr d "email" = Some (VStr (who ++ h ++ "@example.com")) /\
    String.length h = 8 /\
    Text.all_chars Text.is_lower_hex h = true.
Proof.
  intros Hwho Hm H Hget.
  pose proof (email_of_row dt m who row env w d w' Hwho Hm H) as He.
  now rewrite Hget in He.
Qed.

(** X11.  When the sheet has no column for a required amount, the record
    built has [float(0)] there; when it has one, the record has [float]
    of the cell. *)
Theorem missing_amount_is_zero dt m row env w d w' k :
  model_mapping dt = Some m ->
  _prepare_record_data row dt env w = (Ok d, w') ->
  In k (required_amounts m) ->
  (get row k = None -> attr d k = Some (VFloat (float_of_int 0))) /\
  (forall n, get row k = Some (CInt n) -> attr d k = Some (VFloat (float_of_int n))) /\
  (forall x, get row k = Some (CFloat x) -> attr d k = Some (VFloat x)).
Proof.
  intros Hm H Hk.
  pose proof (amount_of_row dt m row env w d w' k Hm H Hk) as Ha.
  repeat split.
  - intros Hget. now rewrite Hget in Ha.
  - intros n Hget. rewrite Hget in Ha. destruct Ha as (x & Hx & Hattr).
    cbn in Hx. congruence.
  - intros x0 Hget. rewrite Hget in Ha. destruct Ha as (x & Hx & Hattr).
    cbn in Hx. congruence.
Qed.

(** X12.  Text that [float] does not read in a required amount costs the
    row: the turn of the loop stages nothing, leaves the session as it
    was, and adds one "Row n: ..." entry to the errors. *)
Theorem unreadable_amount_fails_row dt m index row p e env w k s msg :
  model_mapping dt = Some m ->
  In k (required_amounts m) ->
  get row k = Some (CStr s) ->
  float_of_str s = Raise msg ->
  exists msg' w',
    process_row m dt index row p e env w
      = (Ok (p, e ++ [row_error index msg']), w') /\
    db w' = db w.
Proof.
  intros Hm Hk Hget Hs.
  destruct (amount_text_raises dt m row env w k s msg Hm Hk Hget Hs)
    as (msg' & w' & Hraise).
  exists msg', w'. rewrite process_row_eq, Hraise. split; [reflexivity|].
  destruct (prepare_session dt row env w) as [Hdb _]. now rewrite Hraise in Hdb.
Qed.

(** X13.  An optional amount is [None] not only when its column is
    missing or its cell is empty, but also when the cell is the number
    zero: a zero is not kept. *)
Theorem optional_amount_zero_is_none dt m row env w d w' k :
  model_mapping dt = Some m ->
  _prepare_record_data row dt env w = (Ok d, w') ->
  In k (optional_amounts m) ->
  get row k = None \/ get row k = Some (CStr "") \/ get row k = Some (CInt 0) ->
  attr d k = Some VNone.
Proof.
  intros Hm H Hk Hget.
  pose proof (optional_amount_of_row dt m row env w d w' k Hm H Hk) as Ha.
  destruct Hget as [Hg|[Hg|Hg]]; rewrite Hg in Ha; exact Ha.
Qed.

(** X14.  An optional text field is [None] when its column is missing
    and when its cell is false (empty, a zero, the boolean False), and
    otherwise the text of the cell as it stands. *)
Theorem optional_text_of_row dt m row env w d w' k :
  model_mapping dt = Some m ->
  _prepare_record_data row dt env w = (Ok d, w') ->
  In k (optional_texts m) ->
  match get row k with
  | Some c => attr d k = Some (if py_bool c then VStr (py_str c) else VNone)
  | None => attr d k = Some VNone
  end.
Proof.
  intros Hm H Hk. rewrite (prepare_runs_builder dt m row env w Hm) in H.
  pose proof (builder_optional_text m k _ _ _ _ _ _ Hk H) as Ha.
  unfold get_or, truthy in Ha. destruct (get row k) as [c|]; exact Ha.
Qed.

(** X15.  A customer or an agent built from a sheet with no full_name
    column is named by its first and last name with a blank between
    them, "Unknown" and "Customer" (or "Agent") standing for a missing
    first_name or last_name column. *)
Theorem full_name_is_derived dt m row env w d w' :
  m = Customer \/ m = Agent ->
  model_mapping dt = Some m ->
  _prepare_record_data row dt env w = (Ok d, w') ->
  get row "full_name" = None ->
  exists first_name last_name,
    attr d "first_name" = Some (VStr first_name) /\
    attr d "last_name" = Some (VStr last_name) /\
    attr d "full_name" = Some (VStr (first_name ++ " " ++ last_name)) /\
    (get row "first_name" = None -> first_name = "Unknown") /\
    (get row "last_name" = None -> last_name = default_last_name m).
Proof.
  intros Hwho Hm H Hget. rewrite (prepare_runs_builder dt m row env w Hm) in H.
  destruct (builder_names m _ _ _ _ _ _ Hwho H) as (H1 & H2 & H3).
  cbv zeta in H3. unfold get_or at 1 in H3. rewrite Hget in H3. cbn [py_str] in H3.
  eexists _, _. split; [exact H1|]. split; [exact H2|]. split; [exact H3|].
  unfold get_or. split; intros ->; reflexivity.
Qed.

End MoreFields.

(** * More properties of the frame *)

Section MoreFrame.

Context {R : PyRuntime}.

Lemma normalized_char (c : ascii) :
  let c' := if Ascii.eqb (Text.lower_char c) " " then "_"%char else Text.lower_char c in
  plain_char c' = true /\
  (Text.is_ascii c = true -> Text.is_ascii c' = true) /\
  (if Ascii.eqb (Text.lower_char c') " " then "_"%char else Text.lower_char c') = c'.
Proof.
  destruct c as [[] [] [] [] [] [] [] []]; repeat split; try reflexivity;
    intros H; exact H.
Qed.

Lemma normalized_chars (s : string) :
  Text.all_chars plain_char (normalized s) = true /\
  normalized (normalized s) = normalized s /\
  String.length (normalized s) = String.length s /\
  (Text.ascii_only s = true -> Text.ascii_only (normalized s) = true).
Proof.
  unfold normalized, Text.spaces_to_underscores, Text.lower, Text.ascii_only.
  induction s as [|c s (IH1 & IH2 & IH3 & IH4)];
    cbn [Text.map_chars Text.all_chars String.length]; [repeat split|].
  destruct (normalized_char c) as (Hp & Ha & Hi). cbv zeta in Hp, Ha, Hi.
  rewrite Hp, IH1, IH2, IH3, Hi. repeat split.
  intros H. apply andb_true_iff in H as [Hc Hs].
  now rewrite (Ha Hc), (IH4 Hs).
Qed.

(** No space is left by [replace(' ', '_')], whatever the text. *)
Lemma no_space_left (s : string) :
  Text.all_chars (fun c => negb (Ascii.eqb c " ")) (Text.spaces_to_underscores s) = true.
Proof.
  unfold Text.spaces_to_underscores.
  induction s as [|c s IH]; cbn [Text.map_chars Text.all_chars]; [reflexivity|].
  rewrite IH, andb_true_r.
  destruct (Ascii.eqb_spec c " ") as [->|Hne]; [reflexivity|].
  now apply negb_true_iff, Ascii.eqb_neq.
Qed.

Lemma renamed_again (c : string) :
  Text.ascii_only c = true ->
  renamed (LText (normalized c)) = Some (normalized c).
Proof.
  intros H. destruct (normalized_chars c) as (_ & H2 & _ & H4).
  unfold renamed, py_lower. rewrite (H4 H). f_equal. exact H2.
Qed.

(** X16.  When the cleaning returns, the frame has as many labels as
    before, in the same order.  A label that was not text is NaN.  A
    label that was text has no space left; if it was ASCII text it is
    that text with every capital lowered and every space made an
    underscore: no capital is left, its length is unchanged (nothing is
    trimmed), and renaming it again changes nothing. *)
Theorem headers_are_normalized (df : DataFrame Label (option Cell)) df' :
  _clean_dataframe df = Ok df' ->
  List.length (columns df') = List.length (columns df) /\
  forall i l,
    nth_error (columns df) i = Some l ->
    match l with
    | LOther => nth_error (columns df') i = Some None
    | LText c =>
        exists c',
          nth_error (columns df') i = Some (Some c') /\
          Text.all_chars (fun ch => negb (Ascii.eqb ch " ")) c' = true /\
          (Text.ascii_only c = true ->
           c' = Text.spaces_to_underscores (Text.lower c) /\
           Text.all_chars plain_char c' = true /\
           String.length c' = String.length c /\
           renamed (LText c') = Some c')
    end.
Proof.
  unfold _clean_dataframe, fillna_empty, normalize_columns, dropna_all.
  cbn [columns rows]. destruct (existsb is_text (columns df)); [|discriminate].
  intros H. injection H as <-. cbn [columns].
  split; [apply length_map|].
  intros i l Hl. apply (map_nth_error renamed) in Hl.
  destruct l as [c|]; [|exact Hl].
  eexists. split; [exact Hl|]. split; [apply no_space_left|].
  intros Hascii. unfold py_lower. rewrite Hascii.
  destruct (normalized_chars c) as (H1 & H2 & H3 & H4).
  repeat split; try assumption.
  exact (renamed_again c Hascii).
Qed.




End MoreFrame.

(** * The upload route *)

Section UploadRoute.

Context {R : PyRuntime}.

Import Route.

Lemma allowed_iff_mapped (dt : string) :
  existsb (String.eqb dt) allowed_types = true <-> exists m, model_mapping dt = Some m.
Proof.
  unfold allowed_types, model_mapping. cbn [existsb].
  rewrite !(String.eqb_sym dt).
  repeat match goal with
         | |- context [String.eqb ?a dt] => destruct (String.eqb a dt)
         end; cbn; split; intros H; try reflexivity; try discriminate H;
    try (eexists; reflexivity); destruct H as [m H]; discriminate H.
Qed.

(** X18.  The route accepts exactly the data types that [process_file]
    has a model class for: an upload that is answered with a response
    schedules an import whose data type is supported, and an upload for
    any other type is refused with 400 before anything is done. *)
Theorem accepted_types_are_supported cfg host dt file s :
  (forall r s',
      upload_file cfg host dt file s = (Respond r, s') ->
      exists m path,
        model_mapping dt = Some m /\ tasks s' = tasks s ++ [(path, dt)]) /\
  (model_mapping dt = None ->
   exists detail, upload_file cfg host dt file s = (HTTPException 400 detail, s)).
Proof.
  unfold upload_file. split.
  - intros r s' H.
    destruct (existsb (String.eqb dt) allowed_types) eqn:Hdt; cbn [negb] in H;
      [|discriminate H].
    apply allowed_iff_mapped in Hdt as [m Hm].
    destruct (negb _); [discriminate H|].
    destruct (_ <? _)%N; [discriminate H|].
    destruct (makedirs_error host _); [discriminate H|].
    destruct (save_error host _ _) as [[msg remains]|]; [discriminate H|].
    injection H as _ <-. cbn [tasks]. eexists m, _. split; [exact Hm | reflexivity].
  - intros Hm.
    destruct (existsb (String.eqb dt) allowed_types) eqn:Hdt; cbn [negb].
    + apply allowed_iff_mapped in Hdt as [m Hm']. congruence.
    + eexists. reflexivity.
Qed.

(** X19.  An upload that is refused never schedules an import: the
    answer is 400, 413 or 500, the tasks are as they were, and with 400
    or 413 nothing at all has changed, on disk or elsewhere. *)
Theorem refused_upload_schedules_nothing cfg host dt file s code detail s' :
  upload_file cfg host dt file s = (HTTPException code detail, s') ->
  tasks s' = tasks s /\
  (code = 400 \/ code = 413 \/ code = 500) /\
  (code <> 500 -> s' = s).
Proof.
  unfold upload_file. intros H.
  destruct (negb (existsb _ _));
    [injection H as <- _ <-; repeat split; auto|].
  destruct (negb (extension_allowed _));
    [injection H as <- _ <-; repeat split; auto|].
  destruct (_ <? _)%N;
    [injection H as <- _ <-; repeat split; auto|].
  destruct (makedirs_error host _);
    [injection H as <- _ <-; repeat split; auto|].
  destruct (save_error host _ _) as [[msg remains]|]; [|discriminate H].
  injection H as <- _ <-. repeat split; auto. congruence.
Qed.

(** X20.  The size limit is inclusive and is checked after the type and
    the extension: for an allowed type and extension, the answer is 413
    exactly when the file is longer than [MAX_FILE_SIZE], whatever the
    disk does, and a file of exactly [MAX_FILE_SIZE] bytes passes. *)
Theorem size_limit_is_inclusive cfg host dt file s :
  existsb (String.eqb dt) allowed_types = true ->
  extension_allowed (filename file) = true ->
  ((MAX_FILE_SIZE cfg < N.of_nat (String.length (content file)))%N <->
   exists detail, upload_file cfg host dt file s = (HTTPException 413 detail, s)) /\
  ((N.of_nat (String.length (content file)) <= MAX_FILE_SIZE cfg)%N ->
   forall detail s', upload_file cfg host dt file s <> (HTTPException 413 detail, s')).
Proof.
  intros Hdt Hext. unfold upload_file.
  rewrite Hdt, Hext. cbn [negb].
  destruct (N.ltb_spec (MAX_FILE_SIZE cfg) (N.of_nat (String.length (content file))))
    as [Hlt|Hle].
  - split.
    + split; [intros _; eexists; reflexivity | intros _; exact Hlt].
    + intros Hle. lia.
  - split.
    + split; [lia|]. intros [detail H]. exfalso.
      destruct (makedirs_error host _); [discriminate H|].
      destruct (save_error host _ _) as [[msg remains]|]; discriminate H.
    + intros _ detail s' H.
      destruct (makedirs_error host _); [discriminate H|].
      destruct (save_error host _ _) as [[msg remains]|]; discriminate H.
Qed.

(** Writing a file leaves the files at other paths as they were. *)
Lemma written_others (fs : list (string * string)) (path data : string) :
  filter (fun f => negb (String.eqb (fst f) path)) (written fs path data)
  = filter (fun f => negb (String.eqb (fst f) path)) fs.
Proof.
  unfold written. rewrite filter_app. cbn [filter fst].
  rewrite String.eqb_refl. cbn [negb]. rewrite app_nil_r.
  induction fs as [|f fs IH]; [reflexivity|]. cbn [filter].
  destruct (String.eqb (fst f) path) eqn:Hf; cbn [negb filter];
    [exact IH | rewrite Hf; cbn [negb]; now rewrite IH].
Qed.

(** X21.  An upload of an allowed type and extension, within the size
    limit, on a disk that takes it, is answered "processing" with zero
    records imported, whatever the file holds.  Its bytes are then the
    one file at [UPLOAD_DIRECTORY/<type>/<type>_<timestamp>_<name>]; the
    files at other paths are those that were there, each with its bytes
    and none lost or added; the directories that were there stay and the
    directory of the type is among them; and one import of that path and
    type is scheduled, after those that were. *)
Theorem accepted_upload_is_saved_and_scheduled cfg host dt file s :
  existsb (String.eqb dt) allowed_types = true ->
  extension_allowed (filename file) = true ->
  (N.of_nat (String.length (content file)) <= MAX_FILE_SIZE cfg)%N ->
  makedirs_error host (path_join (UPLOAD_DIRECTORY cfg) dt) = None ->
  let name := (dt ++ "_" ++ strftime host (time_at host (time_reads s))
               ++ "_" ++ filename file)%string in
  let path := path_join (path_join (UPLOAD_DIRECTORY cfg) dt) name in
  save_error host path (content file) = None ->
  exists r s',
    upload_file cfg host dt file s = (Respond r, s') /\
    response_filename r = name /\
    response_size r = N.of_nat (String.length (content file)) /\
    response_records_imported r = 0 /\
    response_status r = "processing" /\
    filter (fun f => String.eqb (fst f) path) (files s') = [(path, content file)] /\
    filter (fun f => negb (String.eqb (fst f) path)) (files s')
      = filter (fun f => negb (String.eqb (fst f) path)) (files s) /\
    (forall f, fst f <> path -> (In f (files s') <-> In f (files s))) /\
    incl (directories s) (directories s') /\
    In (path_join (UPLOAD_DIRECTORY cfg) dt) (directories s') /\
    tasks s' = tasks s ++ [(path, dt)].
Proof.
  intros Hdt Hext Hsize Hdir name path Hsave.
  unfold upload_file.
  rewrite Hdt, Hext. cbn [negb].
  destruct (N.ltb_spec (MAX_FILE_SIZE cfg) (N.of_nat (String.length (content file))))
    as [Hlt|_]; [lia|].
  rewrite Hdir. fold name. fold path. rewrite Hsave.
  eexists _, _. split; [reflexivity|].
  cbn [response_filename response_size response_records_imported response_status
       files directories tasks].
  pose proof (written_others (files s) path (content file)) as Hothers.
  repeat split.
  - unfold written. rewrite filter_app. cbn [filter fst].
    rewrite String.eqb_refl.
    assert (Hnone : filter (fun f => String.eqb (fst f) path)
                      (filter (fun f => negb (String.eqb (fst f) path)) (files s)) = []).
    { clear Hothers. induction (files s) as [|f fs IH]; [reflexivity|]. cbn [filter].
      destruct (String.eqb (fst f) path) eqn:Hf; cbn [negb filter];
        [exact IH | rewrite Hf; exact IH]. }
    now rewrite Hnone.
  - exact Hothers.
  - intros Hin.
    assert (Hf : In f (filter (fun f => negb (String.eqb (fst f) path))
                         (written (files s) path (content file)))).
    { apply filter_In. split; [exact Hin|].
      now apply negb_true_iff, String.eqb_neq. }
    rewrite Hothers in Hf. now apply filter_In in Hf.
  - intros Hin.
    assert (Hf : In f (filter (fun f => negb (String.eqb (fst f) path)) (files s))).
    { apply filter_In. split; [exact Hin|].
      now apply negb_true_iff, String.eqb_neq. }
    rewrite <- Hothers in Hf. now apply filter_In in Hf.
  - unfold made. destruct (existsb _ (directories s)); intros d Hd;
      [exact Hd | apply in_or_app; now left].
  - unfold made. destruct (existsb _ (directories s)) eqn:He.
    + apply existsb_exists in He as (x & Hx & Heq).
      apply String.eqb_eq in Heq. now subst.
    + apply in_or_app. right. now left.
Qed.

End UploadRoute.

(** * The extra properties on the sample sheets *)

Module MoreExamples.
Import Sample MoreSample.
Import Examples.

Lemma unreadable_file_raises_witness :
  workbook unreadable "import.xlsx" = Raise "File is not a zip file" /\
  exists w',
    process_file "import.xlsx" "payments" unreadable world0
      = (Raise "File is not a zip file", w') /\
    calls (db w') = calls (db world0) ++ [Rollback] /\
    stored (db w') = stored (db world0) /\
    pending (db w') = [] /\
    clock_reads w' = clock_reads world0 /\
    uuid_draws w' = uuid_draws world0.
Proof.
  assert (H : workbook unreadable "import.xlsx" = Raise "File is not a zip file")
    by reflexivity.
  split; [exact H|].
  exact (unreadable_file_raises unreadable world0 "import.xlsx" "payments" _ H).
Defined.

Lemma unsupported_type_raises_witness :
  workbook (on_disk payments_sheet) "import.xlsx" = Ok payments_sheet /\
  existsb is_text (header payments_sheet) = true /\
  model_mapping "invoices" = None /\
  exists w',
    process_file "import.xlsx" "invoices" (on_disk payments_sheet) world0
      = (Raise ("Unsupported data type: " ++ "invoices"), w') /\
    calls (db w') = calls (db world0) ++ [Rollback] /\
    stored (db w') = stored (db world0) /\
    pending (db w') = [] /\
    clock_reads w' = clock_reads world0 /\
    uuid_draws w' = uuid_draws world0.
Proof.
  assert (H1 : workbook (on_disk payments_sheet) "import.xlsx" = Ok payments_sheet)
    by reflexivity.
  assert (H0 : existsb is_text (header payments_sheet) = true) by reflexivity.
  assert (H2 : model_mapping "invoices" = None) by reflexivity.
  repeat (split; [assumption|]).
  exact (unsupported_type_raises _ world0 _ _ _ H1 H0 H2).
Defined.

Lemma unclean_header_raises_witness :
  workbook (on_disk years_sheet) "import.xlsx" = Ok years_sheet /\
  _clean_dataframe (frame_of years_sheet)
    = Raise "Can only use .str accessor with string values!" /\
  exists w',
    import "payments" years_sheet
      = (Raise "Can only use .str accessor with string values!", w') /\
    calls (db w') = calls (db world0) ++ [Rollback] /\
    stored (db w') = stored (db world0) /\
    pending (db w') = [] /\
    clock_reads w' = clock_reads world0 /\
    uuid_draws w' = uuid_draws world0.
Proof.
  assert (H1 : workbook (on_disk years_sheet) "import.xlsx" = Ok years_sheet)
    by reflexivity.
  assert (H2 : _clean_dataframe (frame_of years_sheet)
               = Raise "Can only use .str accessor with string values!")
    by reflexivity.
  repeat (split; [assumption|]).
  exact (unclean_header_raises _ world0 _ "payments" _ _ H1 H2).
Defined.

Lemma errors_in_sheet_order_witness :
  import "payments" payments_sheet
    = (Ok payments_result, snd (import "payments" payments_sheet)) /\
  exists sheet failures,
    workbook (on_disk payments_sheet) "import.xlsx" = Ok sheet /\
    errors payments_result = map (fun f => row_error (fst f) (snd f)) failures /\
    StronglySorted Z.lt (map fst failures) /\
    Forall (fun x => (0 <= x < Z.of_nat (List.length (body sheet)))%Z)
           (map fst failures).
Proof.
  assert (H : import "payments" payments_sheet
              = (Ok payments_result, snd (import "payments" payments_sheet)))
    by (apply run_eq; reflexivity).
  split; [exact H|].
  exact (errors_in_sheet_order _ _ _ _ _ _ H).
Defined.

Lemma audit_failure_is_swallowed_witness :
  workbook (audit_locked payments_sheet) "import.xlsx" = Ok payments_sheet /\
  _clean_dataframe (frame_of payments_sheet) = Ok (cleaned payments_sheet) /\
  model_mapping "payments" = Some Payment /\
  payments_loop_audit_locked
    = (Ok (staged payments_loop_audit_locked, failed payments_loop_audit_locked),
       snd payments_loop_audit_locked) /\
  batch_commit_error (audit_locked payments_sheet)
    (db (snd payments_loop_audit_locked)) (staged payments_loop_audit_locked) = None /\
  commit_error (audit_locked payments_sheet)
    (added (after_batch (db (snd payments_loop_audit_locked))
              (staged payments_loop_audit_locked))
       (audit_object "payments"
          (List.length (staged payments_loop_audit_locked))
          (List.length (failed payments_loop_audit_locked))
          (audit_locked payments_sheet) (snd payments_loop_audit_locked)))
    = Some "database is locked" /\
  exists r w',
    process_file "import.xlsx" "payments" (audit_locked payments_sheet) world0
      = (Ok r, w') /\
    records_imported r = 2 /\
    map obj_class (stored (db w')) = [Payment; Payment] /\
    pending (db w') = [] /\
    map call_name (calls (db w'))
      = ["add Payment"; "add Payment"; "commit"; "add AuditLog"; "commit raises"].
Proof.
  assert (H1 : workbook (audit_locked payments_sheet) "import.xlsx" = Ok payments_sheet)
    by reflexivity.
  assert (H0 : _clean_dataframe (frame_of payments_sheet) = Ok (cleaned payments_sheet))
    by reflexivity.
  assert (H2 : model_mapping "payments" = Some Payment) by reflexivity.
  assert (H3 : payments_loop_audit_locked
               = (Ok (staged payments_loop_audit_locked,
                      failed payments_loop_audit_locked),
                  snd payments_loop_audit_locked))
    by (apply run_eq; reflexivity).
  assert (H4 : batch_commit_error (audit_locked payments_sheet)
                 (db (snd payments_loop_audit_locked))
                 (staged payments_loop_audit_locked) = None) by reflexivity.
  assert (H5 : commit_error (audit_locked payments_sheet)
                 (added (after_batch (db (snd payments_loop_audit_locked))
                           (staged payments_loop_audit_locked))
                    (audit_object "payments"
                       (List.length (staged payments_loop_audit_locked))
                       (List.length (failed payments_loop_audit_locked))
                       (audit_locked payments_sheet) (snd payments_loop_audit_locked)))
               = Some "database is locked") by reflexivity.
  repeat (split; [assumption|]).
  destruct (audit_failure_is_swallowed _ _ _ _ _ _ _ _ _ _ _ H1 H0 H2 H3 H4 H5)
    as (r & w' & Hrun & Hn & _ & Hs & Hp & Hc & _).
  exists r, w'. split; [exact Hrun|]. split; [|split; [|split]].
  - rewrite Hn. reflexivity.
  - rewrite Hs. reflexivity.
  - exact Hp.
  - rewrite Hc. reflexivity.
Defined.

Lemma audit_entry_is_stamped_last_witness :
  workbook (on_disk payments_sheet) "import.xlsx" = Ok payments_sheet /\
  _clean_dataframe (frame_of payments_sheet) = Ok (cleaned payments_sheet) /\
  model_mapping "payments" = Some Payment /\
  payments_loop
    = (Ok (staged payments_loop, failed payments_loop), snd payments_loop) /\
  batch_commit_error (on_disk payments_sheet) (db (snd payments_loop))
    (staged payments_loop) = None /\
  exists r w',
    import "payments" payments_sheet = (Ok r, w') /\
    clock_reads w' = 4.
Proof.
  assert (H1 : workbook (on_disk payments_sheet) "import.xlsx" = Ok payments_sheet)
    by reflexivity.
  assert (H0 : _clean_dataframe (frame_of payments_sheet) = Ok (cleaned payments_sheet))
    by reflexivity.
  assert (H2 : model_mapping "payments" = Some Payment) by reflexivity.
  assert (H3 : payments_loop
               = (Ok (staged payments_loop, failed payments_loop), snd payments_loop))
    by (apply run_eq; reflexivity).
  assert (H4 : batch_commit_error (on_disk payments_sheet) (db (snd payments_loop))
                 (staged payments_loop) = None) by reflexivity.
  repeat (split; [assumption|]).
  destruct (audit_entry_is_stamped_last _ _ _ _ _ _ _ _ _ _ H1 H0 H2 H3 H4)
    as (r & w' & Hrun & Hclock & _).
  exists r, w'. split; [exact Hrun|]. rewrite Hclock. reflexivity.
Defined.

Lemma prepared_row_is_staged_witness :
  model_mapping "payments" = Some Payment /\
  process_row Payment "payments" 0 (row_at 0 payments_sheet) [] []
    (on_disk payments_sheet) world0 =
  match prepared payments_sheet with
  | (Ok d, w1) =>
      (Ok ([] ++ [{| obj_class := Payment; obj_attrs := d |}], []),
       with_db w1 (added (db w1) {| obj_class := Payment; obj_attrs := d |}))
  | (Raise msg, w1) => (Ok ([], [] ++ [row_error 0 msg]), w1)
  end.
Proof.
  assert (H : model_mapping "payments" = Some Payment) by reflexivity.
  split; [exact H|].
  exact (prepared_row_is_staged "payments" Payment 0 (row_at 0 payments_sheet)
           [] [] (on_disk payments_sheet) world0 H).
Defined.

Lemma missing_identifier_is_synthesized_witness :
  model_mapping "payments" = Some Payment /\
  prepared amount_sheet
    = (Ok (returned [] (prepared amount_sheet)), snd (prepared amount_sheet)) /\
  get (row_at 0 amount_sheet) (id_field Payment) = None /\
  exists h,
    attr (returned [] (prepared amount_sheet)) (id_field Payment)
      = Some (VStr (id_prefix Payment ++ h)) /\
    String.length h = 8 /\
    Text.all_chars Text.is_upper_hex h = true.
Proof.
  assert (H1 : model_mapping "payments" = Some Payment) by reflexivity.
  assert (H2 : prepared amount_sheet
               = (Ok (returned [] (prepared amount_sheet)), snd (prepared amount_sheet)))
    by (apply run_eq; reflexivity).
  assert (H3 : get (row_at 0 amount_sheet) (id_field Payment) = None) by reflexivity.
  repeat (split; [assumption|]).
  exact (missing_identifier_is_synthesized _ _ _ _ _ _ _ H1 H2 H3).
Defined.

Lemma missing_email_is_synthesized_witness :
  ((Customer = Customer /\ "customer" = "customer")
   \/ (Customer = Agent /\ "customer" = "agent")) /\
  model_mapping "customers" = Some Customer /\
  prepared_as "customers" first_name_sheet
    = (Ok (returned [] (prepared_as "customers" first_name_sheet)),
       snd (prepared_as "customers" first_name_sheet)) /\
  get (row_at 0 first_name_sheet) "email" = None /\
  exists h,
    attr (returned [] (prepared_as "customers" first_name_sheet)) "email"
      = Some (VStr ("customer" ++ h ++ "@example.com")) /\
    String.length h = 8 /\
    Text.all_chars Text.is_lower_hex h = true.
Proof.
  assert (H0 : (Customer = Customer /\ "customer" = "customer")
               \/ (Customer = Agent /\ "customer" = "agent"))
    by (left; split; reflexivity).
  assert (H1 : model_mapping "customers" = Some Customer) by reflexivity.
  assert (H2 : prepared_as "customers" first_name_sheet
               = (Ok (returned [] (prepared_as "customers" first_name_sheet)),
                  snd (prepared_as "customers" first_name_sheet)))
    by (apply run_eq; reflexivity).
  assert (H3 : get (row_at 0 first_name_sheet) "email" = None) by reflexivity.
  repeat (split; [assumption|]).
  exact (missing_email_is_synthesized _ _ _ _ _ _ _ _ H0 H1 H2 H3).
Defined.

Lemma missing_amount_is_zero_witness :
  model_mapping "payments" = Some Payment /\
  prepared flags_sheet
    = (Ok (returned [] (prepared flags_sheet)), snd (prepared flags_sheet)) /\
  In "amount" (required_amounts Payment) /\
  get (row_at 0 flags_sheet) "amount" = None /\
  attr (returned [] (prepared flags_sheet)) "amount" = Some (VFloat (float_of_int 0)).
Proof.
  assert (H1 : model_mapping "payments" = Some Payment) by reflexivity.
  assert (H2 : prepared flags_sheet
               = (Ok (returned [] (prepared flags_sheet)), snd (prepared flags_sheet)))
    by (apply run_eq; reflexivity).
  assert (H3 : In "amount" (required_amounts Payment)) by (left; reflexivity).
  assert (H4 : get (row_at 0 flags_sheet) "amount" = None) by reflexivity.
  repeat (split; [assumption|]).
  exact (proj1 (missing_amount_is_zero _ _ _ _ _ _ _ _ H1 H2 H3) H4).
Defined.

Lemma unreadable_amount_fails_row_witness :
  model_mapping "payments" = Some Payment /\
  In "amount" (required_amounts Payment) /\
  get (row_at 1 payments_sheet) "amount" = Some (CStr "abc") /\
  float_of_str "abc" = Raise "could not convert string to float: 'abc'" /\
  exists msg' w',
    process_row Payment "payments" 2 (row_at 1 payments_sheet) [] []
      (on_disk payments_sheet) world0
      = (Ok ([], [] ++ [row_error 2 msg']), w') /\
    db w' = db world0.
Proof.
  assert (H1 : model_mapping "payments" = Some Payment) by reflexivity.
  assert (H2 : In "amount" (required_amounts Payment)) by (left; reflexivity).
  assert (H3 : get (row_at 1 payments_sheet) "amount" = Some (CStr "abc"))
    by reflexivity.
  assert (H4 : float_of_str "abc" = Raise "could not convert string to float: 'abc'")
    by reflexivity.
  repeat (split; [assumption|]).
  exact (unreadable_amount_fails_row "payments" Payment 2 (row_at 1 payments_sheet)
           [] [] (on_disk payments_sheet) world0 "amount" "abc" _ H1 H2 H3 H4).
Defined.

Lemma optional_amount_zero_is_none_witness :
  model_mapping "claims" = Some Claim /\
  prepared_as "claims" claims_sheet
    = (Ok (returned [] (prepared_as "claims" claims_sheet)),
       snd (prepared_as "claims" claims_sheet)) /\
  In "approved_amount" (optional_amounts Claim) /\
  get (row_at 0 claims_sheet) "approved_amount" = Some (CInt 0) /\
  attr (returned [] (prepared_as "claims" claims_sheet)) "approved_amount"
    = Some VNone.
Proof.
  assert (H1 : model_mapping "claims" = Some Claim) by reflexivity.
  assert (H2 : prepared_as "claims" claims_sheet
               = (Ok (returned [] (prepared_as "claims" claims_sheet)),
                  snd (prepared_as "claims" claims_sheet)))
    by (apply run_eq; reflexivity).
  assert (H3 : In "approved_amount" (optional_amounts Claim)) by (left; reflexivity).
  assert (H4 : get (row_at 0 claims_sheet) "approved_amount" = Some (CInt 0))
    by reflexivity.
  repeat (split; [assumption|]).
  exact (optional_amount_zero_is_none _ _ _ _ _ _ _ _ H1 H2 H3
           (or_intror (or_intror H4))).
Defined.

Lemma optional_text_of_row_witness :
  model_mapping "payments" = Some Payment /\
  prepared payments_sheet
    = (Ok (returned [] (prepared payments_sheet)), snd (prepared payments_sheet)) /\
  In "description" (optional_texts Payment) /\
  get (row_at 0 payments_sheet) "description" = None /\
  attr (returned [] (prepared payments_sheet)) "description" = Some VNone.
Proof.
  assert (H1 : model_mapping "payments" = Some Payment) by reflexivity.
  assert (H2 : prepared payments_sheet
               = (Ok (returned [] (prepared payments_sheet)),
                  snd (prepared payments_sheet)))
    by (apply run_eq; reflexivity).
  assert (H3 : In "description" (optional_texts Payment))
    by (do 3 right; left; reflexivity).
  assert (H4 : get (row_at 0 payments_sheet) "description" = None) by reflexivity.
  repeat (split; [assumption|]).
  pose proof (optional_text_of_row _ _ _ _ _ _ _ _ H1 H2 H3) as H.
  rewrite H4 in H. exact H.
Defined.

Lemma full_name_is_derived_witness :
  (Customer = Customer \/ Customer = Agent) /\
  model_mapping "customers" = Some Customer /\
  prepared_as "customers" first_name_sheet
    = (Ok (returned [] (prepared_as "customers" first_name_sheet)),
       snd (prepared_as "customers" first_name_sheet)) /\
  get (row_at 0 first_name_sheet) "full_name" = None /\
  attr (returned [] (prepared_as "customers" first_name_sheet)) "full_name"
    = Some (VStr "Ada Customer").
Proof.
  assert (H0 : Customer = Customer \/ Customer = Agent) by (left; reflexivity).
  assert (H1 : model_mapping "customers" = Some Customer) by reflexivity.
  assert (H2 : prepared_as "customers" first_name_sheet
               = (Ok (returned [] (prepared_as "customers" first_name_sheet)),
                  snd (prepared_as "customers" first_name_sheet)))
    by (apply run_eq; reflexivity).
  assert (H3 : get (row_at 0 first_name_sheet) "full_name" = None) by reflexivity.
  repeat (split; [assumption|]).
  destruct (full_name_is_derived _ _ _ _ _ _ _ H0 H1 H2 H3)
    as (fn & ln & Hf & Hl & Hfull & _ & Hdefault).
  rewrite Hfull. do 2 f_equal.
  rewrite (Hdefault eq_refl).
  assert (Hfn : attr (returned [] (prepared_as "customers" first_name_sheet))
                  "first_name" = Some (VStr "Ada")) by reflexivity.
  rewrite Hfn in Hf. injection Hf as <-. reflexivity.
Defined.

Lemma headers_are_normalized_witness :
  _clean_dataframe (frame_of payments_sheet) = Ok (cleaned payments_sheet) /\
  List.length (columns (cleaned payments_sheet)) = 2 /\
  exists c',
    nth_error (columns (cleaned payments_sheet)) 0 = Some (Some c') /\
    (Text.ascii_only "Payment ID" = true -> c' = "payment_id").
Proof.
  assert (H : _clean_dataframe (frame_of payments_sheet) = Ok (cleaned payments_sheet))
    by reflexivity.
  split; [exact H|].
  destruct (headers_are_normalized _ _ H) as [Hlen Hcols].
  split; [rewrite Hlen; reflexivity|].
  destruct (Hcols 0 (LText "Payment ID") eq_refl) as (c' & Hc & _ & Hascii).
  exists c'. split; [exact Hc|].
  intros Ha. destruct (Hascii Ha) as [-> _]. reflexivity.
Defined.


Lemma refused_upload_schedules_nothing_witness :
  Route.upload_file Route.settings machine "invoices" book idle
    = (Route.HTTPException 400
         "Invalid data type. Allowed types: payments, receipts, policies, claims, customers, agents, audit_logs",
       idle) /\
  Route.tasks idle = Route.tasks idle /\
  (400 = 400 \/ 400 = 413 \/ 400 = 500) /\
  (400 <> 500 -> idle = idle).
Proof.
  assert (H : Route.upload_file Route.settings machine "invoices" book idle
              = (Route.HTTPException 400
                   "Invalid data type. Allowed types: payments, receipts, policies, claims, customers, agents, audit_logs",
                 idle)) by reflexivity.
  split; [exact H|].
  exact (refused_upload_schedules_nothing _ _ _ _ _ _ _ _ H).
Defined.

Lemma size_limit_is_inclusive_witness :
  existsb (String.eqb "payments") Route.allowed_types = true /\
  Route.extension_allowed (Route.filename big_book) = true /\
  (exists detail,
      Route.upload_file tight machine "payments" big_book idle
      = (Route.HTTPException 413 detail, idle)) /\
  (forall detail s',
      Route.upload_file tight machine "payments" book idle
      <> (Route.HTTPException 413 detail, s')).
Proof.
  assert (H1 : existsb (String.eqb "payments") Route.allowed_types = true)
    by reflexivity.
  assert (H2 : Route.extension_allowed (Route.filename big_book) = true)
    by reflexivity.
  repeat (split; [assumption|]).
  split.
  - apply (proj1 (size_limit_is_inclusive tight machine "payments" big_book idle H1 H2)).
    reflexivity.
  - apply (proj2 (size_limit_is_inclusive tight machine "payments" book idle H1 H2)).
    discriminate.
Defined.

Lemma accepted_upload_is_saved_and_scheduled_witness :
  existsb (String.eqb "payments") Route.allowed_types = true /\
  Route.extension_allowed (Route.filename book) = true /\
  (N.of_nat (String.length (Route.content book)) <= Route.MAX_FILE_SIZE Route.settings)%N /\
  Route.makedirs_error machine
    (Route.path_join (Route.UPLOAD_DIRECTORY Route.settings) "payments") = None /\
  Route.save_error machine
    "uploads/payments/payments_20231114_221320_Book.XLSX" (Route.content book) = None /\
  exists r s',
    Route.upload_file Route.settings machine "payments" book busy = (Route.Respond r, s') /\
    Route.response_filename r = "payments_20231114_221320_Book.XLSX" /\
    Route.response_records_imported r = 0 /\
    Route.tasks s'
      = [("uploads/claims/claims_20231114_221320_Old.xlsx", "claims");
         ("uploads/payments/payments_20231114_221320_Book.XLSX", "payments")] /\
    filter (fun f => negb (String.eqb (fst f)
                             "uploads/payments/payments_20231114_221320_Book.XLSX"))
           (Route.files s')
      = Route.files busy /\
    In "uploads/claims" (Route.directories s').
Proof.
  assert (H1 : existsb (String.eqb "payments") Route.allowed_types = true)
    by reflexivity.
  assert (H2 : Route.extension_allowed (Route.filename book) = true) by reflexivity.
  assert (H3 : (N.of_nat (String.length (Route.content book))
                <= Route.MAX_FILE_SIZE Route.settings)%N) by (vm_compute; discriminate).
  assert (H4 : Route.makedirs_error machine
                 (Route.path_join (Route.UPLOAD_DIRECTORY Route.settings) "payments")
               = None) by reflexivity.
  repeat (split; [first [assumption | reflexivity]|]).
  destruct (accepted_upload_is_saved_and_scheduled Route.settings machine "payments"
              book busy H1 H2 H3 H4 eq_refl)
    as (r & s' & Hrun & Hname & _ & Hzero & _ & _ & Hothers & _ & Hdirs & _ & Htasks).
  exists r, s'. split; [exact Hrun|]. split; [|split; [|split; [|split]]].
  - rewrite Hname. reflexivity.
  - exact Hzero.
  - rewrite Htasks. reflexivity.
  - exact Hothers.
  - apply Hdirs. left. reflexivity.
Defined.

Lemma empty_sheet_is_completed_witness :
  workbook (on_disk blank_sheet) "import.xlsx" = Ok blank_sheet /\
  existsb is_text (header blank_sheet) = true /\
  model_mapping "payments" = Some Payment /\
  forallb all_nan (body blank_sheet) = true /\
  exists w',
    import "payments" blank_sheet
      = (Ok {| records_imported := 0; errors := []; status := "completed" |}, w') /\
    clock_reads w' = 1.
Proof.
  assert (H1 : workbook (on_disk blank_sheet) "import.xlsx" = Ok blank_sheet)
    by reflexivity.
  assert (H0 : existsb is_text (header blank_sheet) = true) by reflexivity.
  assert (H2 : model_mapping "payments" = Some Payment) by reflexivity.
  assert (H3 : forallb all_nan (body blank_sheet) = true) by reflexivity.
  repeat (split; [assumption|]).
  destruct (empty_sheet_is_completed _ world0 _ _ _ _ H1 H0 H2 H3)
    as (w' & Hrun & _ & _ & Hclock).
  exists w'. split; [exact Hrun | exact Hclock].
Defined.

End MoreExamples.
